(** * Website chatbot: extraction pipeline, prompt building and session state

    A shallow embedding of [complete_app.py]: the three backend functions
    ([test_groq_api], [scrape_website], [ask_groq]) and the button handlers
    of the Streamlit front end that update [st.session_state].

    Python strings are sequences of Unicode code points, so a string is a
    list of code points here: [len] counts code points, as Python does.
    The two outbound calls ([requests.get] and
    [client.chat.completions.create]) are the only effects; a backend
    function is a small program over these two calls, run against an
    environment that answers them. *)

From Stdlib Require Import String Ascii DecimalString.
From Stdlib Require Import List NArith ZArith Bool Lia.
From Stdlib Require QArith_base.
Import ListNotations.

Set Implicit Arguments.
Set Warnings "-register-all".

(** ** Python strings *)

Module Py.

Definition char := N.
Definition str := list char.

(** An ASCII literal of the source, as code points. *)
Definition lit (s : string) : str := map N_of_ascii (list_ascii_of_string s).

Definition len {A} (l : list A) : Z := Z.of_nat (length l).

Definition nl : str := [10%N].
Definition dquote : str := [34%N].

(** [str.isspace] on one code point: the characters [str.split()] and
    [str.strip()] treat as whitespace. *)
Definition isspace (c : char) : bool :=
  ((9 <=? c) && (c <=? 13) || (28 <=? c) && (c <=? 32)
   || (c =? 133) || (c =? 160) || (c =? 5760)
   || (8192 <=? c) && (c <=? 8202)
   || (c =? 8232) || (c =? 8233) || (c =? 8239) || (c =? 8287)
   || (c =? 12288))%N.

Fixpoint str_eqb (a b : str) : bool :=
  match a, b with
  | [], [] => true
  | x :: a', y :: b' => N.eqb x y && str_eqb a' b'
  | _, _ => false
  end.

(** [s.startswith(prefix)] *)
Fixpoint startswith (prefix s : str) : bool :=
  match prefix, s with
  | [], _ => true
  | p :: prefix', c :: s' => N.eqb p c && startswith prefix' s'
  | _ :: _, [] => false
  end.

(** [needle in s] *)
Fixpoint contains (needle s : str) : bool :=
  startswith needle s ||
  match s with
  | [] => false
  | _ :: s' => contains needle s'
  end.

Fixpoint lstrip (s : str) : str :=
  match s with
  | [] => []
  | c :: s' => if isspace c then lstrip s' else s
  end.

(** Drops the trailing whitespace: a character is kept when something
    that is not whitespace follows it or it is not whitespace itself. *)
Fixpoint rstrip (s : str) : str :=
  match s with
  | [] => []
  | c :: s' =>
      match rstrip s' with
      | [] => if isspace c then [] else [c]
      | r => c :: r
      end
  end.

(** [s.strip()] *)
Definition strip (s : str) : str := rstrip (lstrip s).

(** [s.split()]: the maximal runs of characters that are not whitespace.
    [cur] is the run being read, in reverse. *)
Fixpoint split_aux (cur : str) (s : str) : list str :=
  match s with
  | [] => match cur with [] => [] | _ => [rev_append cur []] end
  | c :: s' =>
      if isspace c
      then match cur with
           | [] => split_aux [] s'
           | _ => rev_append cur [] :: split_aux [] s'
           end
      else split_aux (c :: cur) s'
  end.

Definition split (s : str) : list str := split_aux [] s.

(** [sep.join(parts)] *)
Fixpoint join (sep : str) (parts : list str) : str :=
  match parts with
  | [] => []
  | [p] => p
  | p :: rest => p ++ sep ++ join sep rest
  end.

(** [s.replace(old, new)] for a non-empty [old]: occurrences are replaced
    from the left and do not overlap. [skip] counts the characters of a
    replaced occurrence that are still to be passed over. *)
Fixpoint replace_aux (old new : str) (skip : nat) (s : str) : str :=
  match s with
  | [] => []
  | c :: s' =>
      match skip with
      | S k => replace_aux old new k s'
      | O =>
          if startswith old s
          then new ++ replace_aux old new (length old - 1) s'
          else c :: replace_aux old new 0 s'
      end
  end.

Definition replace (old new s : str) : str := replace_aux old new 0 s.

(** [s[:n]] for [n >= 0] *)
Definition slice_to (n : Z) {A} (l : list A) : list A := firstn (Z.to_nat n) l.

(** [l[-n:]] for [n > 0]: the last [n] elements, all of them when there
    are fewer. *)
Definition slice_last (n : Z) {A} (l : list A) : list A :=
  skipn (length l - Z.to_nat n) l.

(** [str(n)] for a length *)
Definition str_of_Z (n : Z) : str :=
  lit (NilZero.string_of_int (Z.to_int n)).

End Py.

Import Py.

(** ** The parsed page

    [BeautifulSoup(response.content, 'html.parser')] is a library call: the
    parser is not part of this program. A page is the tree it returns. A
    tree node is a tag, an ordinary text node, or one of the special
    strings (comment, doctype, processing instruction) that [get_text]
    passes over. *)

Module Bs4.

Inductive node : Type :=
| NavigableString (s : str)
| Comment (s : str)
| Tag (name : str) (attrs : list (str * str)) (contents : list node).

(** The [BeautifulSoup] object: the top-level nodes of the document. *)
Definition soup := list node.

Definition name_in (name : str) (names : list str) : bool :=
  existsb (str_eqb name) names.

(** [tag.descendants]: every node below, in document order. *)
Fixpoint descendants_of (n : node) : list node :=
  match n with
  | Tag _ _ contents => flat_map (fun c => c :: descendants_of c) contents
  | _ => []
  end.

Definition descendants (d : soup) : list node :=
  flat_map (fun c => c :: descendants_of c) d.

Definition is_tag_named (names : list str) (n : node) : bool :=
  match n with
  | Tag name _ _ => name_in name names
  | _ => false
  end.

(** [soup.find_all(names)], also written [soup(names)] *)
Definition find_all (names : list str) (d : soup) : list node :=
  filter (is_tag_named names) (descendants d).

(** [soup.find(name)], also written [soup.<name>] *)
Definition find (name : str) (d : soup) : option node :=
  hd_error (find_all [name] d).

(** What is left of a node once every tag found by [soup(names)] has been
    decomposed: such a tag goes with everything below it. *)
Fixpoint decompose (names : list str) (n : node) : list node :=
  match n with
  | Tag name attrs contents =>
      if name_in name names then []
      else [Tag name attrs (flat_map (decompose names) contents)]
  | _ => [n]
  end.

(** [for element in soup(names): element.decompose()] *)
Definition decompose_all (names : list str) (d : soup) : soup :=
  flat_map (decompose names) d.

(** [tag.string]: the only child when it is a string, the [.string] of the
    only child when it is a tag, [None] otherwise. *)
Fixpoint tag_string (n : node) : option str :=
  match n with
  | NavigableString s => Some s
  | Comment s => Some s
  | Tag _ _ [c] => tag_string c
  | Tag _ _ _ => None
  end.

(** The pieces [tag.get_text(strip=True)] joins: the ordinary text nodes
    below the tag, stripped, the empty ones left out. *)
Definition stripped_strings (n : node) : list str :=
  flat_map (fun c =>
              match c with
              | NavigableString s =>
                  match strip s with
                  | [] => []
                  | t => [t]
                  end
              | _ => []
              end) (descendants_of n).

(** [tag.get_text(strip=True)] *)
Definition get_text (n : node) : str := concat (stripped_strings n).

(** [tag.get(key)] *)
Fixpoint get (attrs : list (str * str)) (key : str) : option str :=
  match attrs with
  | [] => None
  | (k, v) :: rest => if str_eqb k key then Some v else get rest key
  end.

End Bs4.

Import Bs4.

Local Open Scope Z_scope.

(** ** The extraction steps of [scrape_website] *)

Record scrape_result : Type := mk_scrape_result {
  success : bool;
  message : str;
  content : str
}.

Definition unwanted : list str :=
  [lit "script"; lit "style"; lit "nav"; lit "footer"; lit "header"].

(** Truth value of a string: [if s:] *)
Definition truthy (s : str) : bool :=
  match s with [] => false | _ => true end.

(** The [TITLE:] fragment. A tag object is always true, so the test
    [soup.title and soup.title.string] fails only when there is no title
    tag or its [.string] is [None] or empty. *)
Definition title_text (d : soup) : list str :=
  match find (lit "title") d with
  | Some t =>
      match tag_string t with
      | Some s => if truthy s then [lit "TITLE: " ++ strip s] else []
      | None => []
      end
  | None => []
  end.

(** The loop over the meta tags, left at the first description with a
    content. *)
Fixpoint meta_description (meta_tags : list node) : list str :=
  match meta_tags with
  | [] => []
  | Tag _ attrs _ :: rest =>
      match get attrs (lit "name") with
      | Some n =>
          if str_eqb n (lit "description")
          then match get attrs (lit "content") with
               | Some c =>
                   if truthy c then [lit "DESCRIPTION: " ++ strip c]
                   else meta_description rest
               | None => meta_description rest
               end
          else meta_description rest
      | None => meta_description rest
      end
  | _ :: rest => meta_description rest
  end.

(** One of the three loops over tags: the text of every tag longer than
    [threshold], behind [prefix]. *)
Definition texts_over (threshold : Z) (prefix : str) (tags : list node)
  : list str :=
  flat_map (fun t =>
              let text := get_text t in
              if truthy text && (threshold <? len text)
              then [prefix ++ text] else []) tags.

Definition bullet : str := [8226%N; 32%N].

(** [all_text] once the five collecting steps have run on the page the
    unwanted tags were removed from. *)
Definition all_text (d : soup) : list str :=
  title_text d
  ++ meta_description (find_all [lit "meta"] d)
  ++ texts_over 3 nl (find_all [lit "h1"; lit "h2"; lit "h3"; lit "h4"] d)
  ++ texts_over 30 [] (find_all [lit "p"] d)
  ++ texts_over 10 bullet (find_all [lit "li"] d).

(** "Combine and clean text" *)
Definition combine_and_clean (fragments : list str) : str :=
  let website_text := join (nl ++ nl) fragments in
  let website_text := join (lit " ") (split website_text) in
  replace (lit ". ") (lit "." ++ nl) website_text.

Definition truncation_marker : str := nl ++ nl ++ lit "[Content truncated...]".

(** "Limit size" *)
Definition limit_size (website_text : str) : str :=
  if 15000 <? len website_text
  then slice_to 15000 website_text ++ truncation_marker
  else website_text.

(** "Validate content" and the two returns that follow it *)
Definition validate_content (website_text : str) : scrape_result :=
  if negb (truthy website_text) || (len website_text <? 200)
  then mk_scrape_result false
         (lit "Could not extract enough content. Try a different URL.") []
  else mk_scrape_result true
         (lit "Successfully scraped! Extracted "
          ++ str_of_Z (len website_text) ++ lit " characters.")
         website_text.

(** The text of the page before the size limit *)
Definition cleaned_text (d : soup) : str :=
  combine_and_clean (all_text (decompose_all unwanted d)).

(** The text of the page with the size limit applied *)
Definition website_text (d : soup) : str := limit_size (cleaned_text d).

(** From the parsed page to the returned dictionary *)
Definition extract (d : soup) : scrape_result :=
  validate_content (website_text d).

(** ** Exceptions and the two outbound calls *)

(** An exception: its class, whether the class derives from [requests]'
    [Timeout] and [ConnectionError] (a [ConnectTimeout] derives from
    both), which is what the [except] clauses test, and [str(e)], which
    the messages use. *)
Record exn : Type := mk_exn {
  class_name : str;
  isinstance_Timeout : bool;
  isinstance_ConnectionError : bool;
  str_e : str
}.

Inductive outcome (A : Type) : Type :=
| Returned (a : A)
| Raised (e : exn).

Arguments Raised {A} e.

(** [requests.get(url, headers=headers, timeout=15)] *)
Record get_request : Type := mk_get_request {
  get_url : str;
  get_headers : list (str * str);
  get_timeout : Z
}.

(** The response of [requests.get], its body already parsed by
    [BeautifulSoup(response.content, 'html.parser')]. *)
Record response : Type := mk_response {
  status_code : Z;
  reason : str;
  response_url : str;
  parsed : soup
}.

(** [requests]' [HTTPError]: neither a [Timeout] nor a [ConnectionError] *)
Definition HTTPError (text : str) : exn :=
  mk_exn (lit "HTTPError") false false text.

(** [response.raise_for_status()], as the [requests] library has it: an
    [HTTPError] for a status from 400 to 599, nothing otherwise. *)
Definition raise_for_status (r : response) : option exn :=
  if (400 <=? status_code r) && (status_code r <? 500)
  then Some (HTTPError (str_of_Z (status_code r) ++ lit " Client Error: "
                        ++ reason r ++ lit " for url: " ++ response_url r))
  else if (500 <=? status_code r) && (status_code r <? 600)
  then Some (HTTPError (str_of_Z (status_code r) ++ lit " Server Error: "
                        ++ reason r ++ lit " for url: " ++ response_url r))
  else None.

Inductive Role : Type := system | user | assistant.

(** A chat message: [{"role": ..., "content": ...}] *)
Record msg : Type := mk_msg {
  role : Role;
  msg_content : str
}.

(** [client.chat.completions.create(model=..., messages=..., ...)] on a
    client made with [Groq(api_key=...)] *)
Record chat_request : Type := mk_chat_request {
  req_api_key : str;
  req_model : str;
  req_messages : list msg;
  req_max_tokens : Z;
  req_temperature : option QArith_base.Q
}.

(** The completion: [message.content] of each of [response.choices],
    [None] when the provider sent no text. *)
Definition completion := list (option str).

(** A backend function or a handler: it returns, or it makes one of the
    two calls and goes on with what the call gave. *)
Inductive io (R : Type) : Type :=
| Ret (r : R)
| RequestsGet (req : get_request) (k : outcome response -> io R)
| ChatCreate (req : chat_request) (k : outcome completion -> io R).

Arguments Ret {R} r.
Arguments RequestsGet {R} req k.
Arguments ChatCreate {R} req k.

Fixpoint bind {A B : Type} (p : io A) (f : A -> io B) : io B :=
  match p with
  | Ret a => f a
  | RequestsGet req k => RequestsGet req (fun o => bind (k o) f)
  | ChatCreate req k => ChatCreate req (fun o => bind (k o) f)
  end.

Notation "x <- p ;; q" := (bind p (fun x => q))
  (at level 61, p at next level, right associativity).

(** The network and the provider: what each call gives. *)
Record world : Type := mk_world {
  http : get_request -> outcome response;
  groq : chat_request -> outcome completion
}.

Inductive call : Type :=
| CallGet (req : get_request)
| CallCreate (req : chat_request).

(** Runs a program in a world; the calls it made come with the result. *)
Fixpoint run {R : Type} (w : world) (p : io R) : R * list call :=
  match p with
  | Ret r => (r, [])
  | RequestsGet req k =>
      let (r, calls) := run w (k (http w req)) in (r, CallGet req :: calls)
  | ChatCreate req k =>
      let (r, calls) := run w (k (groq w req)) in (r, CallCreate req :: calls)
  end.

(** ** [scrape_website] *)

Definition user_agent : str :=
  lit "Mozilla/5.0 (Windows NT 10.0; Win64; x64) AppleWebKit/537.36".

(** "Add https:// if missing" *)
Definition add_https (url : str) : str :=
  if negb (startswith (lit "http") url) then lit "https://" ++ url else url.

(** The three [except] clauses, tried in order *)
Definition scrape_except (e : exn) : scrape_result :=
  if isinstance_Timeout e
  then mk_scrape_result false
         (lit "Request timeout. Website took too long to respond.") []
  else if isinstance_ConnectionError e
  then mk_scrape_result false
         (lit "Connection error. Check your internet or try a different URL.")
         []
  else mk_scrape_result false (lit "Error: " ++ str_e e) [].

Definition scrape_website (url : str) : io scrape_result :=
  let url := add_https url in
  let headers := [(lit "User-Agent", user_agent)] in
  RequestsGet (mk_get_request url headers 15)
    (fun got =>
       match got with
       | Raised e => Ret (scrape_except e)
       | Returned response =>
           match raise_for_status response with
           | Some e => Ret (scrape_except e)
           | None => Ret (extract (parsed response))
           end
       end).

(** ** [ask_groq], [test_groq_api] and the session *)

Record test_result : Type := mk_test_result {
  test_success : bool;
  test_message : str
}.

Record ask_result : Type := mk_ask_result {
  ask_success : bool;
  answer : str
}.

(** [st.session_state] *)
Record session : Type := mk_session {
  groq_client : option str;
  website_scraped : bool;
  website_content : str;
  website_url : str;
  messages : list msg;
  chat_history : list msg;
  api_validated : bool
}.

(** "Initialize session state" *)
Definition initial_session : session :=
  mk_session None false [] [] [] [] false.

Definition model_name : str := lit "llama-3.3-70b-versatile".

(** The system message of [ask_groq] *)
Definition system_prompt (website_url website_content : str) : str :=
  lit "You are a helpful AI assistant answering questions about websites."
  ++ nl ++ nl
  ++ lit "WEBSITE URL: " ++ website_url ++ nl ++ nl
  ++ lit "WEBSITE CONTENT:" ++ nl
  ++ website_content ++ nl ++ nl
  ++ lit "INSTRUCTIONS:" ++ nl
  ++ lit "- Answer using ONLY the website content above" ++ nl
  ++ lit "- If info is not available, say " ++ dquote
  ++ lit "I don't see that information on this website" ++ dquote ++ nl
  ++ lit "- Be helpful, accurate, and concise" ++ nl
  ++ lit "- Provide specific details from the website" ++ nl
  ++ lit "- Format answers clearly with proper paragraphs" ++ nl
  ++ lit "- Don't make up information".

(** "Build messages", "Add recent chat history", "Add current question" *)
Definition build_messages (website_url website_content question : str)
    (chat_history : list msg) : list msg :=
  let messages := [mk_msg system (system_prompt website_url website_content)] in
  let messages :=
    if 0 <? len chat_history
    then messages ++ slice_last 4 chat_history
    else messages in
  messages ++ [mk_msg user question].

(** What Python raises inside the [try] of [ask_groq] when the client is
    [None], when [choices] is empty and when the content is [None]. *)
Definition no_chat_attribute : exn :=
  mk_exn (lit "AttributeError") false false
    (lit "'NoneType' object has no attribute 'chat'").
Definition index_out_of_range : exn :=
  mk_exn (lit "IndexError") false false (lit "list index out of range").
Definition no_strip_attribute : exn :=
  mk_exn (lit "AttributeError") false false
    (lit "'NoneType' object has no attribute 'strip'").

Definition quick_questions : list str :=
  [lit "What is this website about?";
   lit "What services are offered?";
   lit "What are the pricing options?";
   lit "How can I contact them?";
   lit "What are the main features?";
   lit "Tell me about the company"].

Section Backend.

(** [str.lower], Python's Unicode lower-casing: a library function, used
    only to look for words in the text of an exception. *)
Variable lower : str -> str.

Definition test_except (e : exn) : test_result :=
  let error_msg := str_e e in
  if contains (lit "authentication") (lower error_msg)
     || contains (lit "401") error_msg
  then mk_test_result false
         (lit "Invalid API key. Please check and try again.")
  else mk_test_result false (lit "Error: " ++ error_msg).

Definition test_groq_api (api_key : str) : io test_result :=
  if negb (truthy api_key) || (len (strip api_key) =? 0)
  then Ret (mk_test_result false (lit "API key cannot be empty"))
  else
    ChatCreate
      (mk_chat_request (strip api_key) model_name
         [mk_msg user (lit "test")] 5 None)
      (fun got =>
         match got with
         | Returned _ =>
             Ret (mk_test_result true
                    (lit "API key is valid! " ++ [10003%N]))
         | Raised e => Ret (test_except e)
         end).

Definition ask_except (e : exn) : ask_result :=
  let error_msg := str_e e in
  let error_msg :=
    if contains (lit "authentication") (lower error_msg)
    then lit "Invalid API key. Please check your key."
    else if contains (lit "rate limit") (lower error_msg)
    then lit "Rate limit exceeded. Please wait and try again."
    else error_msg in
  mk_ask_result false (lit "Error: " ++ error_msg).

Definition ask_groq (groq_client : option str)
    (website_url website_content question : str) (chat_history : list msg)
  : io ask_result :=
  if negb (truthy question) || (len (strip question) =? 0)
  then Ret (mk_ask_result false (lit "Please enter a valid question."))
  else
    let messages :=
      build_messages website_url website_content question chat_history in
    match groq_client with
    | None => Ret (ask_except no_chat_attribute)
    | Some key =>
        ChatCreate
          (mk_chat_request key model_name messages 800
             (Some (QArith_base.Qmake 7 10)))
          (fun got =>
             match got with
             | Raised e => Ret (ask_except e)
             | Returned [] => Ret (ask_except index_out_of_range)
             | Returned (None :: _) => Ret (ask_except no_strip_attribute)
             | Returned (Some text :: _) =>
                 Ret (mk_ask_result true (strip text))
             end)
    end.

(** *** The button handlers *)

(** "Validate" *)
Definition click_validate (api_key_input : str) (s : session) : io session :=
  if truthy api_key_input
  then
    result <- test_groq_api api_key_input ;;
    if test_success result
    then Ret (mk_session (Some api_key_input) (website_scraped s)
                (website_content s) (website_url s) (messages s)
                (chat_history s) true)
    else Ret (mk_session (groq_client s) (website_scraped s)
                (website_content s) (website_url s) (messages s)
                (chat_history s) false)
  else Ret s.

(** "Scrape Website" *)
Definition click_scrape (url_input : str) (s : session) : io session :=
  if negb (api_validated s) then Ret s
  else if negb (truthy url_input) then Ret s
  else
    result <- scrape_website url_input ;;
    if success result
    then Ret (mk_session (groq_client s) true (content result) url_input
                [] [] (api_validated s))
    else Ret (mk_session (groq_client s) false (website_content s)
                (website_url s) (messages s) (chat_history s)
                (api_validated s)).

(** "Clear Chat" *)
Definition click_clear_chat (s : session) : io session :=
  Ret (mk_session (groq_client s) (website_scraped s) (website_content s)
         (website_url s) [] [] (api_validated s)).

(** "Reset All": the state is cleared and the next run of the script
    initialises it again. *)
Definition click_reset_all (s : session) : io session :=
  Ret initial_session.

Definition set_messages (m : list msg) (s : session) : session :=
  mk_session (groq_client s) (website_scraped s) (website_content s)
    (website_url s) m (chat_history s) (api_validated s).

Definition set_chat_history (h : list msg) (s : session) : session :=
  mk_session (groq_client s) (website_scraped s) (website_content s)
    (website_url s) (messages s) h (api_validated s).

(** The chat area is on the page only once the key is validated and a
    website is scraped. *)
Definition chat_shown (s : session) : bool :=
  api_validated s && website_scraped s.

(** "Ask Question" *)
Definition click_ask (question : str) (s : session) : io session :=
  if chat_shown s && truthy question
  then
    let s := set_messages (messages s ++ [mk_msg user question]) s in
    result <- ask_groq (groq_client s) (website_url s) (website_content s)
                question (chat_history s) ;;
    let s := set_messages (messages s ++ [mk_msg assistant (answer result)]) s in
    if ask_success result
    then
      let s := set_chat_history
                 (chat_history s ++ [mk_msg user question]
                  ++ [mk_msg assistant (answer result)]) s in
      if 8 <? len (chat_history s)
      then Ret (set_chat_history (slice_last 8 (chat_history s)) s)
      else Ret s
    else Ret s
  else Ret s.

(** One of the six quick-question buttons *)
Definition click_quick (idx : nat) (s : session) : io session :=
  if chat_shown s
  then
    match nth_error quick_questions idx with
    | None => Ret s
    | Some q =>
        let s := set_messages (messages s ++ [mk_msg user q]) s in
        result <- ask_groq (groq_client s) (website_url s) (website_content s)
                    q (chat_history s) ;;
        let s := set_messages (messages s ++ [mk_msg assistant (answer result)]) s in
        if ask_success result
        then Ret (set_chat_history
                    (chat_history s ++ [mk_msg user q]
                     ++ [mk_msg assistant (answer result)]) s)
        else Ret s
    end
  else Ret s.

(** What the user can do on the page *)
Inductive action : Type :=
| Validate (api_key_input : str)
| Scrape (url_input : str)
| ClearChat
| ResetAll
| Ask (question : str)
| Quick (idx : nat).

Definition handle (a : action) (s : session) : io session :=
  match a with
  | Validate api_key_input => click_validate api_key_input s
  | Scrape url_input => click_scrape url_input s
  | ClearChat => click_clear_chat s
  | ResetAll => click_reset_all s
  | Ask question => click_ask question s
  | Quick idx => click_quick idx s
  end.

(** The session after one action in a world *)
Definition step (w : world) (a : action) (s : session) : session :=
  fst (run w (handle a s)).

(** The session after a sequence of actions, each in the world it meets *)
Fixpoint steps (todo : list (world * action)) (s : session) : session :=
  match todo with
  | [] => s
  | (w, a) :: rest => steps rest (step w a s)
  end.

End Backend.

(** ** Pages, worlds and sessions used in the examples *)

Definition el (name : string) (contents : list node) : node :=
  Tag (lit name) [] contents.

Definition text (s : string) : node := NavigableString (lit s).

(** The tree [html.parser] builds for
    [<html><title>Acme</title><body><h1>Welcome to Acme</h1><p>Acme
    provides widget manufacturing services to clients worldwide since
    1990.</p></body></html>] *)
Definition acme_page : soup :=
  [el "html"
     [el "title" [text "Acme"];
      el "body"
        [el "h1" [text "Welcome to Acme"];
         el "p" [text "Acme provides widget manufacturing services to clients worldwide since 1990."]]]].

(** A paragraph of [n] letters *)
Definition filler (n : Z) : node :=
  Tag (lit "p") [] [NavigableString (repeat 97%N (Z.to_nat n))].

(** A page with one paragraph of 15,001 letters *)
Definition long_page : soup := [el "html" [el "body" [filler 15001]]].

(** A page with enough text to pass the validation, and a navigation bar *)
Definition nav_page (nav_text : string) : soup :=
  [el "html"
     [el "body"
        [el "nav" [el "a" [text nav_text]];
         el "header" [el "h1" [text "Site banner"]];
         el "h1" [text "Widgets"];
         filler 250;
         el "script" [text "var tracking = 1;"];
         el "footer" [el "p" [text "Copyright notice of the widget manufacturing company"]]]]].

Definition timeout_exn : exn :=
  mk_exn (lit "ReadTimeout") true false (lit "Read timed out.").

Definition connection_exn : exn :=
  mk_exn (lit "ConnectionError") false true (lit "Connection refused").

Definition value_exn (text : str) : exn :=
  mk_exn (lit "ValueError") false false text.

(** A world whose network serves [page] with the given status and whose
    provider answers every request with [reply]. *)
Definition serving (status : Z) (status_text : string) (page : soup)
    (reply : outcome completion) : world :=
  mk_world
    (fun req => Returned (mk_response status (lit status_text) (get_url req) page))
    (fun _ => reply).

(** A world whose network raises [e] *)
Definition failing (e : exn) (reply : outcome completion) : world :=
  mk_world (fun _ => Raised e) (fun _ => reply).

Definition answers (s : string) : outcome completion :=
  Returned [Some (lit s)].

(** A session with a validated key and a scraped website *)
Definition ready_session : session :=
  mk_session (Some (lit "gsk_key")) true
    (lit "TITLE: Old page") (lit "https://old.example") [] [] true.

(** A session in the middle of a conversation *)
Definition talking_session : session :=
  mk_session (Some (lit "gsk_key")) true
    (lit "TITLE: Old page") (lit "https://old.example")
    [mk_msg user (lit "What is this?"); mk_msg assistant (lit "A page.")]
    [mk_msg user (lit "What is this?"); mk_msg assistant (lit "A page.")]
    true.

(** The spec's "has a scheme", read as in RFC 3986: a letter, then
    letters, digits, [+], [-] or [.], then a colon. *)
Definition is_alpha (c : char) : bool :=
  ((65 <=? c) && (c <=? 90) || (97 <=? c) && (c <=? 122))%N.

Definition is_scheme_char (c : char) : bool :=
  (is_alpha c || (48 <=? c) && (c <=? 57)
   || (c =? 43) || (c =? 45) || (c =? 46))%N.

Fixpoint scheme_rest (s : str) : bool :=
  match s with
  | [] => false
  | c :: s' => (c =? 58)%N || is_scheme_char c && scheme_rest s'
  end.

Definition has_scheme (url : str) : bool :=
  match url with
  | [] => false
  | c :: s' => is_alpha c && scheme_rest s'
  end.

(** ** Vocabulary of the properties *)

(** Two pages that differ only in tags named in [names]: in what such a
    tag holds, and in whether it is there at all. *)
Inductive changed_inside (names : list str) : node -> node -> Prop :=
| same_string s :
    changed_inside names (NavigableString s) (NavigableString s)
| same_comment s :
    changed_inside names (Comment s) (Comment s)
| inside name attrs1 contents1 attrs2 contents2 :
    name_in name names = true ->
    changed_inside names (Tag name attrs1 contents1) (Tag name attrs2 contents2)
| around name attrs contents1 contents2 :
    changed_inside_each names contents1 contents2 ->
    changed_inside names (Tag name attrs contents1) (Tag name attrs contents2)
with changed_inside_each (names : list str) : list node -> list node -> Prop :=
| each_nil : changed_inside_each names [] []
| each_cons n1 n2 l1 l2 :
    changed_inside names n1 n2 -> changed_inside_each names l1 l2 ->
    changed_inside_each names (n1 :: l1) (n2 :: l2)
| each_left n l1 l2 :
    is_tag_named names n = true -> changed_inside_each names l1 l2 ->
    changed_inside_each names (n :: l1) l2
| each_right n l1 l2 :
    is_tag_named names n = true -> changed_inside_each names l1 l2 ->
    changed_inside_each names l1 (n :: l2).

Scheme changed_inside_mut := Minimality for changed_inside Sort Prop
  with changed_inside_each_mut := Minimality for changed_inside_each Sort Prop.

(** A node that is not a tag named in [names] *)
Definition not_named (names : list str) (n : node) : Prop :=
  is_tag_named names n = false.

(** The text collected from [acme_page], on its single line *)
Definition acme_line : str :=
  lit "TITLE: Acme Welcome to Acme Acme provides widget manufacturing services to clients worldwide since 1990.".

(** The request [scrape_website] makes for a URL already normalised *)
Definition the_request (url : str) : get_request :=
  mk_get_request url [(lit "User-Agent", user_agent)] 15.

(** A world without a network *)
Definition offline : world :=
  failing connection_exn (Raised connection_exn).

(** The statuses [raise_for_status] raises on *)
Definition in_error_range (status : Z) : bool :=
  (400 <=? status) && (status <? 600).

(** The chat history holds whole exchanges: a user message, then the
    assistant's, and so on. *)
Fixpoint exchanges (h : list msg) : Prop :=
  match h with
  | [] => True
  | a :: b :: rest => role a = user /\ role b = assistant /\ exchanges rest
  | _ => False
  end.

(** [temperature=0.7] *)
Definition sampling : option QArith_base.Q := Some (QArith_base.Qmake 7 10).

(** What [ask_groq] returns when the question is empty or blank *)
Definition invalid_question : ask_result :=
  mk_ask_result false (lit "Please enter a valid question.").

(** A chat history of five exchanges *)
Definition ten_entries : list msg :=
  [mk_msg user (lit "q1"); mk_msg assistant (lit "a1");
   mk_msg user (lit "q2"); mk_msg assistant (lit "a2");
   mk_msg user (lit "q3"); mk_msg assistant (lit "a3");
   mk_msg user (lit "q4"); mk_msg assistant (lit "a4");
   mk_msg user (lit "q5"); mk_msg assistant (lit "a5")].

(** What [ask_groq] returns in a world *)
Definition asked (lower : str -> str) (w : world) (question : str)
    (s : session) : ask_result :=
  fst (run w (ask_groq lower (groq_client s) (website_url s)
                (website_content s) question (chat_history s))).

(** What [scrape_website] returns in a world *)
Definition scraped (w : world) (url : str) : scrape_result :=
  fst (run w (scrape_website url)).

(** What [test_groq_api] returns in a world *)
Definition tested (lower : str -> str) (w : world) (api_key : str)
  : test_result :=
  fst (run w (test_groq_api lower api_key)).

(** The two entries an exchange adds to a list of messages *)
Definition exchange (question : str) (r : ask_result) : list msg :=
  [mk_msg user question; mk_msg assistant (answer r)].

(** "Keep history manageable" *)
Definition keep_manageable (h : list msg) : list msg :=
  if 8 <? len h then slice_last 8 h else h.

(** A world that serves a page with enough text and answers questions *)
Definition good_reply : world :=
  serving 200 "OK" (nav_page "Home") (answers "It is a page about widgets.").

(** The quick-question buttons among the actions *)
Definition is_quick (a : action) : bool :=
  match a with Quick _ => true | _ => false end.

(** What a failing action is: the backend function it calls returns
    without success. *)
Definition fails (lower : str -> str) (w : world) (a : action)
    (s : session) : Prop :=
  match a with
  | Validate key => truthy key = true /\ test_success (tested lower w key) = false
  | Scrape url =>
      api_validated s && truthy url = true /\ success (scraped w url) = false
  | Ask question =>
      chat_shown s && truthy question = true
      /\ ask_success (asked lower w question s) = false
  | Quick idx =>
      chat_shown s = true
      /\ exists q, nth_error quick_questions idx = Some q
                   /\ ask_success (asked lower w q s) = false
  | ClearChat | ResetAll => False
  end.

(** A world whose network times out and whose provider refuses *)
Definition timing_out : world :=
  failing timeout_exn (Raised (value_exn (lit "rate limit reached"))).

(** A meta tag the description loop stops at: its name is "description"
    and its content is not empty. *)
Definition describes (n : node) : bool :=
  match n with
  | Tag _ attrs _ =>
      match get attrs (lit "name"), get attrs (lit "content") with
      | Some name, Some c => str_eqb name (lit "description") && truthy c
      | _, _ => false
      end
  | _ => false
  end.

(** The result of the content validation when it fails *)
Definition insufficient_content : scrape_result :=
  mk_scrape_result false
    (lit "Could not extract enough content. Try a different URL.") [].

(** The heading tags the second loop looks for *)
Definition heading_names : list str := [lit "h1"; lit "h2"; lit "h3"; lit "h4"].

(** The calls an action makes in a world *)
Definition calls (lower : str -> str) (w : world) (a : action) (s : session)
  : list call :=
  snd (run w (handle lower a s)).

(** The actions a handler turns down before calling anything: no key
    typed, no validated key or no URL, no chat area or no question, no
    such button. *)
Definition turned_down (a : action) (s : session) : bool :=
  match a with
  | Validate key => negb (truthy key)
  | Scrape url => negb (api_validated s) || negb (truthy url)
  | Ask question => negb (chat_shown s) || negb (truthy question)
  | Quick idx =>
      negb (chat_shown s)
      || match nth_error quick_questions idx with
         | None => true
         | Some _ => false
         end
  | ClearChat | ResetAll => false
  end.

(** The request [test_groq_api] sends for a key *)
Definition test_request (api_key : str) : chat_request :=
  mk_chat_request (strip api_key) model_name [mk_msg user (lit "test")] 5 None.

(** The request [ask_groq] sends *)
Definition ask_request (key url content question : str) (history : list msg)
  : chat_request :=
  mk_chat_request key model_name
    (build_messages url content question history) 800 sampling.

(** A session whose flags are backed by what they announce: a validated
    key or a scraped website comes with a client, and the stored content
    is empty or of a length the validation and the size limit allow. *)
Definition consistent (s : session) : Prop :=
  (api_validated s = true -> groq_client s <> None)
  /\ (website_scraped s = true ->
      groq_client s <> None /\ 200 <= len (website_content s))
  /\ len (website_content s) <= 15000 + len truncation_marker.

(** A page of boilerplate: a short heading, a short paragraph and two
    short list items *)
Definition boilerplate_page : soup :=
  [el "html"
     [el "body"
        [el "h1" [text "FAQ"];
         el "p" [text "Read more on the next page."];
         el "ul" [el "li" [text "Home"]; el "li" [text "Contact us"]]]]].

(** Two description tags behind a meta tag of another name *)
Definition meta name value : node :=
  Tag (lit "meta") [(lit "name", lit name); (lit "content", lit value)] [].

(** A character that is not whitespace, or is the space *)
Definition plain_or_space (c : char) : Prop := isspace c = true -> c = 32%N.

(** A character that is not whitespace, or is the space or the line break *)
Definition plain_space_or_nl (c : char) : Prop :=
  isspace c = true -> c = 32%N \/ c = 10%N.

(** A validation with the key typed between spaces, then a scrape and a
    question *)
Definition spaced_key : str := lit " gsk_key ".

(** * Properties *)

(** ** Lists, slices and programs *)

Lemma len_app {A} (l1 l2 : list A) : len (l1 ++ l2) = len l1 + len l2.
Proof. unfold len. rewrite length_app. lia. Qed.

Lemma len_nil {A} : len (@nil A) = 0.
Proof. reflexivity. Qed.

Lemma len_nonneg {A} (l : list A) : 0 <= len l.
Proof. unfold len. lia. Qed.

Lemma len_slice_to {A} (n : Z) (l : list A) :
  0 <= n -> len (slice_to n l) = Z.min n (len l).
Proof.
  intros Hn. unfold len, slice_to. rewrite length_firstn. lia.
Qed.

Lemma len_truncation_marker : len truncation_marker = 24.
Proof. reflexivity. Qed.

Lemma slice_last_suffix {A} (n : Z) (l : list A) :
  l = firstn (length l - Z.to_nat n) l ++ slice_last n l.
Proof. unfold slice_last. symmetry. apply firstn_skipn. Qed.

Lemma length_slice_last {A} (n : Z) (l : list A) :
  length (slice_last n l) = Nat.min (Z.to_nat n) (length l).
Proof. unfold slice_last. rewrite length_skipn. lia. Qed.

Lemma run_bind {A B} (w : world) (p : io A) (f : A -> io B) :
  run w (bind p f) =
  (fst (run w (f (fst (run w p)))),
   (snd (run w p) ++ snd (run w (f (fst (run w p)))))%list).
Proof.
  induction p as [a | req k IH | req k IH]; simpl.
  - destruct (run w (f a)); reflexivity.
  - rewrite IH. destruct (run w (k (http w req))); reflexivity.
  - rewrite IH. destruct (run w (k (groq w req))); reflexivity.
Qed.

(** ** The size limit *)

Lemma limit_size_bound (s : str) :
  len (limit_size s) <= 15000 + len truncation_marker.
Proof.
  unfold limit_size. destruct (15000 <? len s) eqn:Hlong.
  - apply Z.ltb_lt in Hlong.
    rewrite len_app, len_slice_to by lia. lia.
  - apply Z.ltb_ge in Hlong. pose proof (len_nonneg truncation_marker). lia.
Qed.

Lemma limit_size_long (s : str) :
  15000 < len s ->
  limit_size s = slice_to 15000 s ++ truncation_marker
  /\ len (slice_to 15000 s) = 15000.
Proof.
  intros Hlong. unfold limit_size.
  apply Z.ltb_lt in Hlong as Hb. rewrite Hb. split; [reflexivity|].
  rewrite len_slice_to by lia. lia.
Qed.

Lemma validate_content_keeps (s : str) :
  content (validate_content s) = s \/ content (validate_content s) = [].
Proof.
  unfold validate_content.
  destruct (negb (truthy s) || (len s <? 200)); simpl; auto.
Qed.

Lemma validate_content_long (s : str) :
  200 <= len s -> validate_content s =
    mk_scrape_result true
      (lit "Successfully scraped! Extracted " ++ str_of_Z (len s)
       ++ lit " characters.") s.
Proof.
  intros Hs. unfold validate_content.
  destruct s as [|c s]; [exfalso; apply Hs; reflexivity|].
  apply Z.ltb_ge in Hs. rewrite Hs. reflexivity.
Qed.

Lemma scrape_except_content (e : exn) : content (scrape_except e) = [].
Proof.
  unfold scrape_except.
  destruct (isinstance_Timeout e), (isinstance_ConnectionError e); reflexivity.
Qed.

Lemma scrape_except_fails (e : exn) : success (scrape_except e) = false.
Proof.
  unfold scrape_except.
  destruct (isinstance_Timeout e), (isinstance_ConnectionError e); reflexivity.
Qed.

(** What [scrape_website] returns in a world, by what the network gave *)
Lemma run_scrape_website (w : world) (url : str) :
  run w (scrape_website url) =
  (match http w (mk_get_request (add_https url)
                   [(lit "User-Agent", user_agent)] 15) with
   | Raised e => scrape_except e
   | Returned response =>
       match raise_for_status response with
       | Some e => scrape_except e
       | None => extract (parsed response)
       end
   end,
   [CallGet (mk_get_request (add_https url)
               [(lit "User-Agent", user_agent)] 15)]).
Proof.
  unfold scrape_website. simpl.
  destruct (http w _) as [response | e]; [|reflexivity].
  destruct (raise_for_status response); reflexivity.
Qed.

(** C1: for every page, the text behind the size limit has at most 15,000
    characters plus the length of the truncation marker, and so has the
    content [scrape_website] returns in any world; when the cleaned text
    has more than 15,000 characters, the text is its first 15,000
    characters, exactly that many, followed by the marker, and that text
    is what is returned. *)
Theorem scrape_output_bounded (d : soup) :
  len (website_text d) <= 15000 + len truncation_marker
  /\ len (content (extract d)) <= 15000 + len truncation_marker
  /\ (forall w url,
        len (content (fst (run w (scrape_website url))))
        <= 15000 + len truncation_marker)
  /\ (15000 < len (cleaned_text d) ->
      website_text d = slice_to 15000 (cleaned_text d) ++ truncation_marker
      /\ len (slice_to 15000 (cleaned_text d)) = 15000
      /\ len (website_text d) = 15000 + len truncation_marker
      /\ success (extract d) = true
      /\ content (extract d) = website_text d).
Proof.
  assert (Hextract : forall p,
             len (content (extract p)) <= 15000 + len truncation_marker).
  { intros p. unfold extract.
    destruct (validate_content_keeps (website_text p)) as [-> | ->].
    - apply limit_size_bound.
    - rewrite len_nil, len_truncation_marker. lia. }
  split; [apply limit_size_bound|].
  split; [apply Hextract|].
  split.
  - intros w url. rewrite run_scrape_website. cbn [fst].
    destruct (http w _) as [response | e].
    + destruct (raise_for_status response).
      * rewrite scrape_except_content, len_nil, len_truncation_marker. lia.
      * apply Hextract.
    + rewrite scrape_except_content, len_nil, len_truncation_marker. lia.
  - intros Hlong. unfold website_text, extract.
    destruct (limit_size_long _ Hlong) as [Heq Hlen].
    assert (Htotal : len (limit_size (cleaned_text d))
                     = 15000 + len truncation_marker).
    { unfold website_text. rewrite Heq, len_app, Hlen. reflexivity. }
    repeat split; try assumption.
    + unfold website_text. rewrite validate_content_long; [reflexivity|].
      rewrite Htotal, len_truncation_marker. lia.
    + unfold website_text. rewrite validate_content_long; [reflexivity|].
      rewrite Htotal, len_truncation_marker. lia.
Qed.

Lemma scrape_output_bounded_long_page :
  15000 < len (cleaned_text long_page)
  /\ website_text long_page
     = slice_to 15000 (cleaned_text long_page) ++ truncation_marker
  /\ len (slice_to 15000 (cleaned_text long_page)) = 15000
  /\ len (website_text long_page) = 15000 + len truncation_marker
  /\ success (extract long_page) = true
  /\ content (extract long_page) = website_text long_page.
Proof.
  assert (Hlong : 15000 < len (cleaned_text long_page))
    by (vm_compute; reflexivity).
  split; [exact Hlong|].
  exact (proj2 (proj2 (proj2 (scrape_output_bounded long_page))) Hlong).
Defined.

(** ** Removed tags *)

(** Induction on a node, with the property known of the nodes below *)
Definition node_nested_ind (P : node -> Prop)
    (Hstring : forall s, P (NavigableString s))
    (Hcomment : forall s, P (Comment s))
    (Htag : forall name attrs contents,
        Forall P contents -> P (Tag name attrs contents)) :
  forall n, P n :=
  fix go (n : node) : P n :=
    match n with
    | NavigableString s => Hstring s
    | Comment s => Hcomment s
    | Tag name attrs contents =>
        Htag name attrs contents
          ((fix all (l : list node) : Forall P l :=
              match l with
              | [] => Forall_nil P
              | c :: l' => Forall_cons c (go c) (all l')
              end) contents)
    end.

Lemma decompose_named (names : list str) (n : node) :
  is_tag_named names n = true -> decompose names n = [].
Proof.
  destruct n as [s | s | name attrs contents]; simpl; try discriminate.
  intros ->. reflexivity.
Qed.

Lemma decompose_changed_inside (names : list str) (l1 l2 : list node) :
  changed_inside_each names l1 l2 ->
  flat_map (decompose names) l1 = flat_map (decompose names) l2.
Proof.
  revert l1 l2.
  apply (changed_inside_each_mut
           (fun n1 n2 => decompose names n1 = decompose names n2)
           (fun l1 l2 => flat_map (decompose names) l1
                         = flat_map (decompose names) l2)).
  - reflexivity.
  - reflexivity.
  - intros name a1 c1 a2 c2 Hin. simpl. rewrite Hin. reflexivity.
  - intros name attrs c1 c2 _ IH. simpl. rewrite IH. reflexivity.
  - reflexivity.
  - intros n1 n2 l1 l2 _ Hn _ Hl. simpl. rewrite Hn, Hl. reflexivity.
  - intros n l1 l2 Hn _ Hl. simpl. rewrite (decompose_named _ _ Hn). exact Hl.
  - intros n l1 l2 Hn _ Hl. simpl. rewrite (decompose_named _ _ Hn). exact Hl.
Qed.

Lemma decompose_leaves_none (names : list str) (n : node) :
  Forall (not_named names)
    (flat_map (fun c => c :: descendants_of c) (decompose names n)).
Proof.
  induction n as [s | s | name attrs contents IH] using node_nested_ind.
  - repeat constructor.
  - repeat constructor.
  - simpl. destruct (name_in name names) eqn:Hname; [constructor|].
    simpl. rewrite app_nil_r. constructor.
    + unfold not_named. simpl. exact Hname.
    + induction IH as [|c rest Hc _ IHrest]; [constructor|].
      simpl. rewrite flat_map_app. apply Forall_app. split; assumption.
Qed.

Lemma decompose_all_leaves_none (names : list str) (d : soup) :
  find_all names (decompose_all names d) = [].
Proof.
  unfold find_all, descendants, decompose_all.
  assert (H : Forall (not_named names)
                (flat_map (fun c => c :: descendants_of c)
                   (flat_map (decompose names) d))).
  { induction d as [|n d IH]; [constructor|].
    simpl. rewrite flat_map_app. apply Forall_app. split; [|exact IH].
    apply decompose_leaves_none. }
  induction H as [|n l Hn _ IH]; [reflexivity|].
  simpl. unfold not_named in Hn. rewrite Hn. exact IH.
Qed.

(** C4: when two pages differ only in their script, style, nav, footer
    and header tags (in what is nested in them, or in having them at
    all), the Extractor gives the same text and the same result for both:
    nothing nested in such a tag reaches the output, and no such tag is
    left in the page the text is collected from. *)
Theorem unwanted_content_not_extracted (d d' : soup) :
  changed_inside_each unwanted d d' ->
  find_all unwanted (decompose_all unwanted d) = []
  /\ all_text (decompose_all unwanted d) = all_text (decompose_all unwanted d')
  /\ cleaned_text d = cleaned_text d'
  /\ website_text d = website_text d'
  /\ extract d = extract d'.
Proof.
  intros Hchanged.
  assert (Hsame : decompose_all unwanted d = decompose_all unwanted d')
    by (apply decompose_changed_inside; exact Hchanged).
  split; [apply decompose_all_leaves_none|].
  unfold extract, website_text, cleaned_text. rewrite Hsame.
  repeat split; reflexivity.
Qed.

Ltac changed :=
  repeat first
    [ apply each_nil
    | apply same_string
    | apply same_comment
    | apply inside; reflexivity
    | apply around
    | apply each_cons ].

Lemma unwanted_content_not_extracted_nav_page :
  changed_inside_each unwanted (nav_page "SECRET MENU") (nav_page "Home")
  /\ find_all unwanted (decompose_all unwanted (nav_page "SECRET MENU")) = []
  /\ all_text (decompose_all unwanted (nav_page "SECRET MENU"))
     = all_text (decompose_all unwanted (nav_page "Home"))
  /\ cleaned_text (nav_page "SECRET MENU") = cleaned_text (nav_page "Home")
  /\ website_text (nav_page "SECRET MENU") = website_text (nav_page "Home")
  /\ extract (nav_page "SECRET MENU") = extract (nav_page "Home").
Proof.
  assert (H : changed_inside_each unwanted
                (nav_page "SECRET MENU") (nav_page "Home"))
    by (unfold nav_page, el; changed).
  split; [exact H|].
  exact (unwanted_content_not_extracted H).
Defined.

Lemma decompose_twice (names : list str) (n : node) :
  flat_map (decompose names) (decompose names n) = decompose names n.
Proof.
  induction n as [s | s | name attrs contents IH] using node_nested_ind;
    try reflexivity.
  simpl. destruct (name_in name names) eqn:Hname; [reflexivity|].
  simpl. rewrite Hname, app_nil_r. do 2 f_equal.
  induction IH as [|c rest Hc _ IHrest]; [reflexivity|].
  simpl. rewrite flat_map_app, Hc, IHrest. reflexivity.
Qed.

(** Removing the tags by hand beforehand changes nothing either. *)
Lemma extract_without_unwanted (d : soup) :
  extract (decompose_all unwanted d) = extract d.
Proof.
  unfold extract, website_text, cleaned_text.
  replace (decompose_all unwanted (decompose_all unwanted d))
    with (decompose_all unwanted d); [reflexivity|].
  unfold decompose_all. generalize unwanted as names. intros names.
  induction d as [|n d IH]; [reflexivity|].
  simpl. rewrite flat_map_app, <- IH, decompose_twice. reflexivity.
Qed.

(** ** The page of the round-trip scenario *)

(** C9, as the code has it: the three fragments are collected, the title
    line, the heading behind a newline and the paragraph verbatim; the
    whitespace collapse joins them into a single line of 104 characters;
    104 is below 200, so the validation fails and no content is
    returned. *)
Theorem acme_page_extraction :
  all_text (decompose_all unwanted acme_page)
  = [lit "TITLE: Acme";
     nl ++ lit "Welcome to Acme";
     lit "Acme provides widget manufacturing services to clients worldwide since 1990."]
  /\ website_text acme_page = acme_line
  /\ len (website_text acme_page) = 104
  /\ extract acme_page
     = mk_scrape_result false
         (lit "Could not extract enough content. Try a different URL.") [].
Proof. repeat split; vm_compute; reflexivity. Qed.

(** C9 as stated fails: on that page the final validation fails, the
    returned content is empty, and even the text before validation holds
    no line break, so "TITLE: Acme" is not a line of it. *)
Lemma acme_page_fails_validation :
  success (extract acme_page) = false
  /\ content (extract acme_page) = []
  /\ contains nl (website_text acme_page) = false.
Proof. repeat split; vm_compute; reflexivity. Qed.

(** ** The request [scrape_website] sends *)

(** C8, as the code has it: in every world [scrape_website] sends one
    request; when the input does not start with "http" the request goes
    to "https://" followed by the input, and when the input starts with
    "http://" or "https://" it goes to the input as it is. *)
Theorem scrape_website_request_url (w : world) (url : str) :
  exists requested,
    snd (run w (scrape_website url)) = [CallGet (the_request requested)]
    /\ (startswith (lit "http") url = false ->
        requested = lit "https://" ++ url)
    /\ (startswith (lit "http://") url = true
        \/ startswith (lit "https://") url = true ->
        requested = url).
Proof.
  exists (add_https url). rewrite run_scrape_website.
  split; [reflexivity|]. unfold add_https. split.
  - intros ->. reflexivity.
  - intros Hscheme.
    assert (Hhttp : startswith (lit "http") url = true).
    { destruct url as [|c1 [|c2 [|c3 [|c4 rest]]]];
        try (destruct Hscheme as [H | H]; simpl in H;
             repeat rewrite andb_false_r in H; discriminate H).
      destruct Hscheme as [H | H]; simpl in H |- *;
        repeat (apply andb_prop in H; destruct H as [? H]);
        repeat (apply andb_true_intro; split; try assumption);
        reflexivity. }
    rewrite Hhttp. reflexivity.
Qed.

Lemma scrape_website_request_url_examples :
  (snd (run offline (scrape_website (lit "example.com")))
   = [CallGet (the_request (lit "https://example.com"))])
  /\ (snd (run offline (scrape_website (lit "http://example.com")))
      = [CallGet (the_request (lit "http://example.com"))]).
Proof.
  split.
  - destruct (scrape_website_request_url offline (lit "example.com"))
      as [requested [Hsent [Hadd _]]].
    rewrite Hsent, (Hadd eq_refl). reflexivity.
  - destruct (scrape_website_request_url offline (lit "http://example.com"))
      as [requested [Hsent [_ Hkeep]]].
    rewrite Hsent, (Hkeep (or_introl eq_refl)). reflexivity.
Defined.

(** C8 as stated fails: "ftp://example.com" has a scheme and is not
    passed through unchanged, the request goes to
    "https://ftp://example.com". *)
Lemma url_with_scheme_is_prefixed :
  has_scheme (lit "ftp://example.com") = true
  /\ snd (run offline (scrape_website (lit "ftp://example.com")))
     = [CallGet (the_request (lit "https://ftp://example.com"))]
  /\ lit "https://ftp://example.com" <> lit "ftp://example.com".
Proof.
  split; [reflexivity|]. split; [reflexivity|].
  intros H. vm_compute in H. discriminate H.
Qed.

(** An input without a scheme that starts with "http" is sent as it is. *)
Lemma url_without_scheme_not_prefixed :
  has_scheme (lit "httpbin.org/html") = false
  /\ snd (run offline (scrape_website (lit "httpbin.org/html")))
     = [CallGet (the_request (lit "httpbin.org/html"))].
Proof. split; reflexivity. Qed.

(** ** Failures of the fetch *)

Lemma raise_for_status_range (r : response) :
  raise_for_status r =
  if in_error_range (status_code r)
  then Some (HTTPError
               (str_of_Z (status_code r)
                ++ (if status_code r <? 500
                    then lit " Client Error: " else lit " Server Error: ")
                ++ reason r ++ lit " for url: " ++ response_url r))
  else None.
Proof.
  unfold raise_for_status, in_error_range.
  destruct (400 <=? status_code r) eqn:H400,
           (status_code r <? 500) eqn:H500,
           (500 <=? status_code r) eqn:H500',
           (status_code r <? 600) eqn:H600; simpl; try reflexivity; lia.
Qed.

(** C7, as the code has it: [scrape_website] sends exactly one request
    whatever comes back. A response with a status from 400 to 599 makes
    it fail with the message "Error: " followed by the text of the HTTP
    error, which is the result any other exception with that text gives
    when it is neither a timeout nor a connection error, and which is
    neither the timeout nor the connection-error result. A response with
    any other status, 2xx or not, goes on to the extraction. *)
Theorem http_status_handling (w : world) (url : str) (r : response) :
  http w (the_request (add_https url)) = Returned r ->
  snd (run w (scrape_website url)) = [CallGet (the_request (add_https url))]
  /\ (in_error_range (status_code r) = true ->
      exists text,
        raise_for_status r = Some (HTTPError text)
        /\ fst (run w (scrape_website url))
           = mk_scrape_result false (lit "Error: " ++ text) []
        /\ (forall e, isinstance_Timeout e = false ->
                      isinstance_ConnectionError e = false ->
                      str_e e = text ->
                      scrape_except e = fst (run w (scrape_website url)))
        /\ (forall e, isinstance_Timeout e = true
                      \/ isinstance_ConnectionError e = true ->
                      scrape_except e <> fst (run w (scrape_website url))))
  /\ (in_error_range (status_code r) = false ->
      fst (run w (scrape_website url)) = extract (parsed r)).
Proof.
  intros Hget. rewrite run_scrape_website. unfold the_request in Hget.
  rewrite Hget. cbn [fst snd]. rewrite raise_for_status_range.
  split; [reflexivity|]. split.
  - intros ->. eexists. split; [reflexivity|].
    split; [reflexivity|]. split.
    + intros e Ht Hc He. unfold scrape_except. rewrite Ht, Hc, He. reflexivity.
    + intros e He Heq. unfold scrape_except in Heq.
      destruct (isinstance_Timeout e); [vm_compute in Heq; discriminate Heq|].
      destruct (isinstance_ConnectionError e);
        [vm_compute in Heq; discriminate Heq|].
      destruct He; discriminate.
  - intros ->. reflexivity.
Qed.

Lemma http_status_handling_404 :
  fst (run (serving 404 "Not Found" acme_page (answers "unused"))
         (scrape_website (lit "example.com/missing")))
  = mk_scrape_result false
      (lit "Error: 404 Client Error: Not Found for url: https://example.com/missing")
      [].
Proof.
  destruct (@http_status_handling
              (serving 404 "Not Found" acme_page (answers "unused"))
              (lit "example.com/missing") _ eq_refl)
    as [_ [Herror _]].
  destruct (Herror eq_refl) as [text [Hraise [Hresult _]]].
  rewrite Hresult. injection Hraise as <-. reflexivity.
Defined.

(** C7 as stated fails: a 304 response is not 2xx, and the fetch does not
    fail on it, the page it carries is extracted; and the result for a
    404 is the result of any other exception with the same text. *)
Lemma status_304_is_not_a_failure :
  success (fst (run (serving 304 "Not Modified" (nav_page "Home")
                       (answers "unused"))
                  (scrape_website (lit "example.com")))) = true
  /\ fst (run (serving 404 "Not Found" acme_page (answers "unused"))
            (scrape_website (lit "example.com")))
     = fst (run (failing
                   (value_exn (lit "404 Client Error: Not Found for url: https://example.com"))
                   (answers "unused"))
              (scrape_website (lit "example.com"))).
Proof. split; vm_compute; reflexivity. Qed.

(** ** The question guard and the message list *)

Lemma lstrip_whitespace (s : str) :
  (forall c, In c s -> isspace c = true) -> lstrip s = [].
Proof.
  induction s as [|c s IH]; intros Hall; [reflexivity|].
  simpl. rewrite (Hall c (or_introl eq_refl)).
  apply IH. intros c' Hc'. apply Hall. right. exact Hc'.
Qed.

Lemma strip_whitespace (s : str) :
  (forall c, In c s -> isspace c = true) -> strip s = [].
Proof. intros Hall. unfold strip. rewrite (lstrip_whitespace s Hall). reflexivity. Qed.

Lemma strip_nil : strip [] = [].
Proof. reflexivity. Qed.

Lemma question_guard_passes (question : str) :
  strip question <> [] ->
  negb (truthy question) || (len (strip question) =? 0) = false.
Proof.
  intros Hq. destruct question as [|c q]; [contradiction Hq; reflexivity|].
  simpl. destruct (strip (c :: q)) as [|c' r]; [contradiction Hq; reflexivity|].
  reflexivity.
Qed.

Lemma build_messages_shape (url content question : str) (history : list msg) :
  build_messages url content question history
  = mk_msg system (system_prompt url content)
    :: slice_last 4 history ++ [mk_msg user question].
Proof.
  unfold build_messages.
  destruct history as [|m history]; [reflexivity|].
  reflexivity.
Qed.

Section BackendProperties.

Variable lower : str -> str.

(** C6: for the empty question and for every question made of whitespace
    only, [ask_groq] returns the failure "Please enter a valid question."
    at once: it is a program that makes no call, so in every world the
    list of calls made is empty. For the question "hi", with a client, it
    builds the message list and sends it. *)
Theorem ask_groq_empty_question (groq_client : option str)
    (url content question : str) (history : list msg) :
  (forall c, In c question -> isspace c = true) ->
  ask_groq lower groq_client url content question history
  = Ret invalid_question
  /\ (forall w,
        run w (ask_groq lower groq_client url content question history)
        = (invalid_question, []))
  /\ (forall key, exists k,
        ask_groq lower (Some key) url content (lit "hi") history
        = ChatCreate
            (mk_chat_request key model_name
               (build_messages url content (lit "hi") history) 800 sampling)
            k).
Proof.
  intros Hspace.
  assert (Hret : ask_groq lower groq_client url content question history
                 = Ret invalid_question).
  { unfold ask_groq. rewrite (strip_whitespace question Hspace).
    rewrite orb_true_r. reflexivity. }
  split; [exact Hret|]. split.
  - intros w. rewrite Hret. reflexivity.
  - intros key. eexists. reflexivity.
Qed.

(** C3: for every chat history and every non-empty question, the message
    list [ask_groq] builds is the system message, then the last 4 entries
    of the history (all of them when there are fewer) in their order,
    then the user message with the question; a history of 10 entries
    gives its entries 7 to 10. Whenever [ask_groq] sends a request, this
    list is what it sends, and it does send one, given a client, when the
    question is not whitespace only. *)
Theorem ask_groq_messages (groq_client : option str)
    (url content question : str) (history : list msg) :
  question <> [] ->
  build_messages url content question history
  = mk_msg system (system_prompt url content)
    :: slice_last 4 history ++ [mk_msg user question]
  /\ (length (slice_last 4 history) <= 4)%nat
  /\ (exists older, history = older ++ slice_last 4 history)%list
  /\ (length history = 10%nat -> slice_last 4 history = skipn 6 history)
  /\ (forall req k,
        ask_groq lower groq_client url content question history
        = ChatCreate req k ->
        req_messages req = build_messages url content question history)
  /\ (strip question <> [] ->
      forall key, groq_client = Some key ->
      exists k,
        ask_groq lower groq_client url content question history
        = ChatCreate
            (mk_chat_request key model_name
               (build_messages url content question history) 800 sampling)
            k).
Proof.
  intros _.
  split; [apply build_messages_shape|].
  split; [rewrite length_slice_last; lia|].
  split; [eexists; apply slice_last_suffix|].
  split.
  { intros Hten. unfold slice_last. rewrite Hten. reflexivity. }
  split.
  - intros req k. unfold ask_groq.
    destruct (negb (truthy question) || (len (strip question) =? 0));
      [discriminate|].
    destruct groq_client as [key|]; [|discriminate].
    intros Heq. injection Heq as <- _. reflexivity.
  - intros Hq key ->. unfold ask_groq.
    rewrite (question_guard_passes question Hq). eexists. reflexivity.
Qed.

End BackendProperties.

Lemma ask_groq_empty_question_blank :
  ask_groq (fun s => s) (Some (lit "gsk_key")) (lit "https://example.com")
    (lit "TITLE: Example") (lit "   ") []
  = Ret invalid_question
  /\ ask_groq (fun s => s) (Some (lit "gsk_key")) (lit "https://example.com")
       (lit "TITLE: Example") [] []
     = Ret invalid_question.
Proof.
  split.
  - apply (@ask_groq_empty_question (fun s => s) (Some (lit "gsk_key"))
             (lit "https://example.com") (lit "TITLE: Example") (lit "   ") []).
    intros c Hc. simpl in Hc.
    repeat (destruct Hc as [<- | Hc]; [reflexivity|]). contradiction.
  - apply (@ask_groq_empty_question (fun s => s) (Some (lit "gsk_key"))
             (lit "https://example.com") (lit "TITLE: Example") [] []).
    intros c Hc. contradiction.
Defined.

Lemma ask_groq_messages_ten_entries :
  build_messages (lit "https://example.com") (lit "TITLE: Example")
    (lit "And now?") ten_entries
  = [mk_msg system (system_prompt (lit "https://example.com") (lit "TITLE: Example"));
     mk_msg user (lit "q4"); mk_msg assistant (lit "a4");
     mk_msg user (lit "q5"); mk_msg assistant (lit "a5");
     mk_msg user (lit "And now?")].
Proof.
  assert (Hq : lit "And now?" <> []) by discriminate.
  destruct (@ask_groq_messages (fun s => s) (Some (lit "gsk_key"))
              (lit "https://example.com") (lit "TITLE: Example")
              (lit "And now?") ten_entries Hq)
    as [Hshape [_ [_ [Hten _]]]].
  rewrite Hshape, (Hten eq_refl). reflexivity.
Defined.

(** ** The session *)

Section SessionProperties.

Variable lower : str -> str.

Lemma step_scrape (w : world) (url : str) (s : session) :
  step lower w (Scrape url) s =
  if api_validated s && truthy url
  then if success (scraped w url)
       then mk_session (groq_client s) true (content (scraped w url)) url
              [] [] (api_validated s)
       else mk_session (groq_client s) false (website_content s)
              (website_url s) (messages s) (chat_history s) (api_validated s)
  else s.
Proof.
  unfold step, handle, click_scrape, scraped.
  destruct (api_validated s); [|reflexivity].
  destruct (truthy url); [|reflexivity].
  cbn [negb andb]. rewrite run_bind. cbn [fst].
  destruct (success (fst (run w (scrape_website url)))); reflexivity.
Qed.

Lemma step_validate (w : world) (key : str) (s : session) :
  step lower w (Validate key) s =
  if truthy key
  then if test_success (tested lower w key)
       then mk_session (Some key) (website_scraped s) (website_content s)
              (website_url s) (messages s) (chat_history s) true
       else mk_session (groq_client s) (website_scraped s) (website_content s)
              (website_url s) (messages s) (chat_history s) false
  else s.
Proof.
  unfold step, handle, click_validate, tested.
  destruct (truthy key); [|reflexivity].
  rewrite run_bind. cbn [fst].
  destruct (test_success (fst (run w (test_groq_api lower key)))); reflexivity.
Qed.

Lemma step_ask (w : world) (question : str) (s : session) :
  step lower w (Ask question) s =
  if chat_shown s && truthy question
  then let r := asked lower w question s in
       mk_session (groq_client s) (website_scraped s) (website_content s)
         (website_url s) (messages s ++ exchange question r)
         (if ask_success r
          then keep_manageable (chat_history s ++ exchange question r)
          else chat_history s)
         (api_validated s)
  else s.
Proof.
  unfold step, handle, click_ask, asked, keep_manageable, exchange.
  destruct (chat_shown s && truthy question); [|reflexivity].
  rewrite run_bind. cbn [fst]. cbv zeta.
  unfold set_messages, set_chat_history. cbn [groq_client website_scraped
    website_content website_url messages chat_history api_validated].
  rewrite <- app_assoc. cbn [app].
  destruct (ask_success _); [|reflexivity].
  destruct (8 <? _); reflexivity.
Qed.

Lemma step_quick (w : world) (idx : nat) (s : session) :
  step lower w (Quick idx) s =
  if chat_shown s
  then match nth_error quick_questions idx with
       | None => s
       | Some q =>
           let r := asked lower w q s in
           mk_session (groq_client s) (website_scraped s) (website_content s)
             (website_url s) (messages s ++ exchange q r)
             (if ask_success r
              then chat_history s ++ exchange q r
              else chat_history s)
             (api_validated s)
       end
  else s.
Proof.
  unfold step, handle, click_quick, asked, exchange.
  destruct (chat_shown s); [|reflexivity].
  destruct (nth_error quick_questions idx) as [q|]; [|reflexivity].
  rewrite run_bind. cbn [fst]. cbv zeta.
  unfold set_messages, set_chat_history. cbn [groq_client website_scraped
    website_content website_url messages chat_history api_validated].
  rewrite <- app_assoc. cbn [app].
  destruct (ask_success _); reflexivity.
Qed.

(** *** Whole exchanges *)

Lemma exchanges_app (h1 h2 : list msg) :
  exchanges h1 -> exchanges h2 -> exchanges (h1 ++ h2).
Proof.
  revert h1. fix IH 1. intros [|a [|b rest]] H1 H2.
  - exact H2.
  - destruct H1.
  - destruct H1 as [Ha [Hb Hrest]]. simpl. auto.
Qed.

Lemma exchanges_even (h : list msg) :
  exchanges h -> exists k, length h = (2 * k)%nat.
Proof.
  revert h. fix IH 1. intros [|a [|b rest]] H.
  - exists 0%nat. reflexivity.
  - destruct H.
  - destruct H as [_ [_ Hrest]]. destruct (IH rest Hrest) as [k Hk].
    exists (S k). simpl. rewrite Hk. lia.
Qed.

Lemma exchanges_skipn (k : nat) (h : list msg) :
  exchanges h -> exchanges (skipn (2 * k) h).
Proof.
  revert h. induction k as [|k IH]; intros h H; [exact H|].
  replace (2 * S k)%nat with (S (S (2 * k))) by lia.
  destruct h as [|a [|b rest]]; [exact I | destruct H |].
  destruct H as [_ [_ Hrest]]. simpl. apply IH. exact Hrest.
Qed.

Lemma exchanges_slice_last (h : list msg) :
  exchanges h -> exchanges (slice_last 8 h).
Proof.
  intros H. unfold slice_last.
  destruct (exchanges_even h H) as [k Hk]. rewrite Hk.
  replace (2 * k - Z.to_nat 8)%nat with (2 * (k - 4))%nat by lia.
  apply exchanges_skipn. exact H.
Qed.

Lemma exchanges_exchange (question : str) (r : ask_result) :
  exchanges (exchange question r).
Proof. simpl. auto. Qed.

Lemma keep_manageable_bound (h : list msg) : len (keep_manageable h) <= 8.
Proof.
  unfold keep_manageable. destruct (8 <? len h) eqn:Hlong.
  - unfold len. rewrite length_slice_last. lia.
  - apply Z.ltb_ge in Hlong. exact Hlong.
Qed.

Lemma keep_manageable_exchanges (h : list msg) :
  exchanges h -> exchanges (keep_manageable h).
Proof.
  intros H. unfold keep_manageable.
  destruct (8 <? len h); [apply exchanges_slice_last|]; exact H.
Qed.

(** Every action keeps the chat history in whole exchanges. *)
Lemma step_keeps_exchanges (w : world) (a : action) (s : session) :
  exchanges (chat_history s) -> exchanges (chat_history (step lower w a s)).
Proof.
  intros H. destruct a as [key | url | | | question | idx].
  - rewrite step_validate. destruct (truthy key); [|exact H].
    destruct (test_success _); exact H.
  - rewrite step_scrape. destruct (api_validated s && truthy url); [|exact H].
    destruct (success _); [exact I | exact H].
  - exact I.
  - exact I.
  - rewrite step_ask. destruct (chat_shown s && truthy question); [|exact H].
    cbv zeta. cbn [chat_history]. destruct (ask_success _); [|exact H].
    apply keep_manageable_exchanges, exchanges_app;
      [exact H | apply exchanges_exchange].
  - rewrite step_quick. destruct (chat_shown s); [|exact H].
    destruct (nth_error quick_questions idx) as [q|]; [|exact H].
    cbv zeta. cbn [chat_history]. destruct (ask_success _); [|exact H].
    apply exchanges_app; [exact H | apply exchanges_exchange].
Qed.

(** Every action but a quick question keeps the chat history within 8
    entries. *)
Lemma step_keeps_cap (w : world) (a : action) (s : session) :
  is_quick a = false ->
  len (chat_history s) <= 8 -> len (chat_history (step lower w a s)) <= 8.
Proof.
  intros Ha H. destruct a as [key | url | | | question | idx];
    try discriminate Ha.
  - rewrite step_validate. destruct (truthy key); [|exact H].
    destruct (test_success _); exact H.
  - rewrite step_scrape. destruct (api_validated s && truthy url); [|exact H].
    destruct (success _); [cbn; lia | exact H].
  - cbn. lia.
  - cbn. lia.
  - rewrite step_ask. destruct (chat_shown s && truthy question); [|exact H].
    cbv zeta. cbn [chat_history]. destruct (ask_success _); [|exact H].
    apply keep_manageable_bound.
Qed.

(** Without quick questions, the history stays within 8 entries and in
    whole exchanges through any sequence of actions. *)
Lemma steps_keep_history (todo : list (world * action)) (s : session) :
  forallb (fun wa => negb (is_quick (snd wa))) todo = true ->
  exchanges (chat_history s) -> len (chat_history s) <= 8 ->
  exchanges (chat_history (steps lower todo s))
  /\ len (chat_history (steps lower todo s)) <= 8.
Proof.
  revert s. induction todo as [|[w a] todo IH]; intros s Hq He Hl.
  - split; assumption.
  - simpl in Hq. apply andb_prop in Hq. destruct Hq as [Ha Hq].
    apply negb_true_iff in Ha. simpl. apply IH.
    + exact Hq.
    + apply step_keeps_exchanges. exact He.
    + apply step_keeps_cap; assumption.
Qed.

(** C2, where the code departs from it: five quick questions answered in
    a row leave 10 entries in the chat history, over the cap of 8, while
    the same five questions asked with the ask button leave 8. *)
Theorem quick_questions_outgrow_cap :
  len (chat_history
         (steps lower (repeat (good_reply, Quick 0) 5) ready_session)) = 10
  /\ len (chat_history
            (steps lower
               (repeat (good_reply, Ask (lit "What is this website about?")) 5)
               ready_session)) = 8.
Proof. split; vm_compute; reflexivity. Qed.

(** C10: when the scrape button is pressed with a validated key and a
    URL, and [scrape_website] succeeds, both message lists are empty
    afterwards, the stored content is the content the scrape returned,
    which is the extracted text of the page received, the stored URL is
    the URL entered, and the website counts as scraped; the message list
    of the next question holds the new system message and the question,
    nothing else. *)
Theorem successful_scrape_resets_chat (w : world) (url : str) (s : session) :
  api_validated s = true ->
  truthy url = true ->
  success (scraped w url) = true ->
  step lower w (Scrape url) s
  = mk_session (groq_client s) true (content (scraped w url)) url [] []
      (api_validated s)
  /\ (exists r, http w (the_request (add_https url)) = Returned r
                /\ content (scraped w url) = website_text (parsed r))
  /\ (forall question,
        build_messages (website_url (step lower w (Scrape url) s))
          (website_content (step lower w (Scrape url) s)) question
          (chat_history (step lower w (Scrape url) s))
        = [mk_msg system (system_prompt url (content (scraped w url)));
           mk_msg user question]).
Proof.
  intros Hkey Hurl Hok.
  assert (Hstep : step lower w (Scrape url) s
                  = mk_session (groq_client s) true (content (scraped w url))
                      url [] [] (api_validated s)).
  { rewrite step_scrape, Hkey, Hurl, Hok. reflexivity. }
  split; [exact Hstep|]. split.
  - unfold scraped in *. rewrite run_scrape_website in *. cbn [fst] in *.
    unfold the_request.
    destruct (http w _) as [r | e].
    + exists r. split; [reflexivity|].
      destruct (raise_for_status r) as [e|].
      * rewrite scrape_except_fails in Hok. discriminate Hok.
      * unfold extract, validate_content in *.
        destruct (negb (truthy (website_text (parsed r)))
                  || (len (website_text (parsed r)) <? 200));
          [discriminate Hok | reflexivity].
    + rewrite scrape_except_fails in Hok. discriminate Hok.
  - intros question. rewrite Hstep. reflexivity.
Qed.

(** C5, as the code has it: a failing action leaves the client, the
    stored content, the stored URL and the chat history as they were. A
    failing scrape also leaves the displayed messages and the validated
    flag, and sets the scraped flag to false. A failing validation leaves
    the displayed messages and the scraped flag, and sets the validated
    flag to false. A failing question leaves both flags, and adds the
    question and the error text to the displayed messages. *)
Theorem failed_action_effect (w : world) (a : action) (s : session) :
  fails lower w a s ->
  groq_client (step lower w a s) = groq_client s
  /\ website_content (step lower w a s) = website_content s
  /\ website_url (step lower w a s) = website_url s
  /\ chat_history (step lower w a s) = chat_history s
  /\ match a with
     | Scrape url =>
         step lower w a s
         = mk_session (groq_client s) false (website_content s)
             (website_url s) (messages s) (chat_history s) (api_validated s)
     | Validate key =>
         step lower w a s
         = mk_session (groq_client s) (website_scraped s) (website_content s)
             (website_url s) (messages s) (chat_history s) false
     | Ask question =>
         step lower w a s
         = mk_session (groq_client s) (website_scraped s) (website_content s)
             (website_url s)
             (messages s ++ exchange question (asked lower w question s))
             (chat_history s) (api_validated s)
     | Quick idx =>
         exists q, nth_error quick_questions idx = Some q
         /\ step lower w a s
            = mk_session (groq_client s) (website_scraped s)
                (website_content s) (website_url s)
                (messages s ++ exchange q (asked lower w q s))
                (chat_history s) (api_validated s)
     | ClearChat | ResetAll => False
     end.
Proof.
  intros Hfail. destruct a as [key | url | | | question | idx];
    cbn [fails] in Hfail.
  - destruct Hfail as [Hkey Hbad]. rewrite step_validate, Hkey, Hbad.
    repeat split.
  - destruct Hfail as [Hrun Hbad]. rewrite step_scrape, Hrun, Hbad.
    repeat split.
  - destruct Hfail.
  - destruct Hfail.
  - destruct Hfail as [Hrun Hbad]. rewrite step_ask, Hrun. cbv zeta.
    rewrite Hbad. repeat split.
  - destruct Hfail as [Hshown [q [Hq Hbad]]]. rewrite step_quick, Hshown, Hq.
    cbv zeta. rewrite Hbad. repeat split. exists q. split; reflexivity.
Qed.

End SessionProperties.

Lemma successful_scrape_resets_chat_example :
  step (fun s => s) good_reply (Scrape (lit "example.com")) talking_session
  = mk_session (Some (lit "gsk_key")) true
      (content (scraped good_reply (lit "example.com"))) (lit "example.com")
      [] [] true.
Proof.
  apply (@successful_scrape_resets_chat (fun s => s) good_reply
           (lit "example.com") talking_session);
    vm_compute; reflexivity.
Defined.

Lemma failed_action_effect_timeout :
  step (fun s => s) timing_out (Scrape (lit "example.com")) talking_session
  = mk_session (Some (lit "gsk_key")) false (lit "TITLE: Old page")
      (lit "https://old.example") (messages talking_session)
      (chat_history talking_session) true.
Proof.
  assert (Hfail : fails (fun s => s) timing_out (Scrape (lit "example.com"))
                    talking_session)
    by (split; vm_compute; reflexivity).
  exact (proj2 (proj2 (proj2 (proj2
           (@failed_action_effect (fun s => s) timing_out
              (Scrape (lit "example.com")) talking_session Hfail))))).
Defined.

(** C5 as stated fails: a scrape that times out turns the scraped flag of
    a session off, a question the provider refuses adds two entries to
    the displayed messages, and a validation that fails turns the
    validated flag off; in each case the session is not what it was. *)
Lemma failed_action_changes_session :
  (fails (fun s => s) timing_out (Scrape (lit "example.com")) talking_session
   /\ website_scraped talking_session = true
   /\ website_scraped
        (step (fun s => s) timing_out (Scrape (lit "example.com"))
           talking_session) = false
   /\ step (fun s => s) timing_out (Scrape (lit "example.com"))
        talking_session <> talking_session)
  /\ (fails (fun s => s) timing_out (Ask (lit "hi")) talking_session
      /\ len (messages talking_session) = 2
      /\ len (messages (step (fun s => s) timing_out (Ask (lit "hi"))
                          talking_session)) = 4)
  /\ (fails (fun s => s) timing_out (Validate (lit "gsk_other"))
        talking_session
      /\ api_validated talking_session = true
      /\ api_validated (step (fun s => s) timing_out
                          (Validate (lit "gsk_other")) talking_session)
         = false).
Proof.
  split; [|split].
  - split; [split; vm_compute; reflexivity|].
    split; [reflexivity|]. split; [vm_compute; reflexivity|].
    intros H. apply (f_equal website_scraped) in H.
    vm_compute in H. discriminate H.
  - split; [split; vm_compute; reflexivity|].
    split; vm_compute; reflexivity.
  - split; [split; vm_compute; reflexivity|].
    split; vm_compute; reflexivity.
Qed.

(** * Further properties of the code *)

(** ** What [scrape_website] returns *)

Lemma extract_content_bounds (d : soup) :
  (success (extract d) = true ->
   200 <= len (content (extract d)) <= 15000 + len truncation_marker)
  /\ (success (extract d) = false -> content (extract d) = []).
Proof.
  unfold extract, validate_content.
  destruct (negb (truthy (website_text d)) || (len (website_text d) <? 200))
    eqn:Hguard; cbn [success content].
  - split; [discriminate | reflexivity].
  - split; [|discriminate]. intros _.
    apply orb_false_elim in Hguard. destruct Hguard as [_ Hlen].
    apply Z.ltb_ge in Hlen. split; [exact Hlen | apply limit_size_bound].
Qed.

Lemma scraped_content_bounds (w : world) (url : str) :
  (success (scraped w url) = true ->
   200 <= len (content (scraped w url)) <= 15000 + len truncation_marker)
  /\ (success (scraped w url) = false -> content (scraped w url) = []).
Proof.
  unfold scraped. rewrite run_scrape_website. cbn [fst].
  destruct (http w _) as [r | e].
  - destruct (raise_for_status r) as [e|]; [|apply extract_content_bounds].
    rewrite scrape_except_fails, scrape_except_content.
    split; [discriminate | reflexivity].
  - rewrite scrape_except_fails, scrape_except_content.
    split; [discriminate | reflexivity].
Qed.

(** X1: in every world and for every URL, a successful result of
    [scrape_website] carries a content of at least 200 characters and at
    most 15,000 plus the truncation marker, and a failed one carries the
    empty content: the content is empty exactly when the scrape failed. *)
Theorem scrape_result_content (w : world) (url : str) :
  (success (scraped w url) = true ->
   200 <= len (content (scraped w url)) <= 15000 + len truncation_marker)
  /\ (success (scraped w url) = false -> content (scraped w url) = [])
  /\ (content (scraped w url) = [] <-> success (scraped w url) = false).
Proof.
  destruct (scraped_content_bounds w url) as [Hok Hbad].
  split; [exact Hok|]. split; [exact Hbad|].
  split; [|exact Hbad].
  intros Hempty. destruct (success (scraped w url)); [|reflexivity].
  specialize (Hok eq_refl). rewrite Hempty, len_nil in Hok. lia.
Qed.

(** ** The collecting loops *)




Lemma texts_over_short (threshold : Z) (prefix : str) (tags : list node) :
  (forall t, In t tags -> len (get_text t) <= threshold) ->
  texts_over threshold prefix tags = [].
Proof.
  intros Hshort. unfold texts_over.
  induction tags as [|t tags IH]; [reflexivity|].
  cbn [flat_map].
  assert (Ht : (threshold <? len (get_text t)) = false)
    by (apply Z.ltb_ge, Hshort; left; reflexivity).
  rewrite Ht, andb_false_r, IH; [reflexivity|].
  intros t' Ht'. apply Hshort. right. exact Ht'.
Qed.

Lemma meta_description_skip (n : node) (rest : list node) :
  describes n = false ->
  meta_description (n :: rest) = meta_description rest.
Proof.
  destruct n as [s | s | name attrs contents]; try reflexivity.
  cbn [describes meta_description].
  destruct (get attrs (lit "name")) as [nm|]; [|reflexivity].
  destruct (get attrs (lit "content")) as [c|].
  - destruct (str_eqb nm (lit "description")); [|reflexivity].
    cbn [andb]. intros ->. reflexivity.
  - destruct (str_eqb nm (lit "description")); reflexivity.
Qed.

Lemma meta_description_none (tags : list node) :
  Forall (fun n => describes n = false) tags -> meta_description tags = [].
Proof.
  induction 1 as [|n rest Hn _ IH]; [reflexivity|].
  rewrite (meta_description_skip n rest Hn). exact IH.
Qed.

(** X3: the description loop stops at the first meta tag whose name is
    "description" and whose content is not empty: the fragment comes from
    that tag, stripped, whatever meta tags follow, and only one
    description fragment is ever emitted. *)
Theorem meta_description_first (before after : list node)
    (name : str) (attrs : list (str * str)) (contents : list node) (c : str) :
  Forall (fun n => describes n = false) before ->
  get attrs (lit "name") = Some (lit "description") ->
  get attrs (lit "content") = Some c ->
  c <> [] ->
  meta_description (before ++ Tag name attrs contents :: after)
  = [lit "DESCRIPTION: " ++ strip c].
Proof.
  intros Hbefore Hname Hcontent Hc.
  induction Hbefore as [|n rest Hn _ IH].
  - cbn [app meta_description]. rewrite Hname, Hcontent.
    destruct c as [|x c]; [contradiction Hc; reflexivity|]. reflexivity.
  - cbn [app]. rewrite (meta_description_skip n _ Hn). exact IH.
Qed.

Lemma meta_description_first_example :
  meta_description
    ([meta "viewport" "width=device-width"; meta "description" ""]
     ++ meta "description" "  Widgets for everyone " 
     :: [meta "description" "A second description"])
  = [lit "DESCRIPTION: Widgets for everyone"].
Proof.
  apply (@meta_description_first
           [meta "viewport" "width=device-width"; meta "description" ""]
           [meta "description" "A second description"]
           (lit "meta")
           [(lit "name", lit "description");
            (lit "content", lit "  Widgets for everyone ")]
           [] (lit "  Widgets for everyone ")).
  - repeat constructor.
  - reflexivity.
  - reflexivity.
  - discriminate.
Defined.

(** X4: a page without a title, without a description, and whose
    headings, paragraphs and list items all stay at or below the
    thresholds of 3, 30 and 10 characters gives no text at all, and the
    Extractor fails with "Could not extract enough content". *)
Theorem boilerplate_rejected (d : soup) :
  find (lit "title") (decompose_all unwanted d) = None ->
  Forall (fun n => describes n = false)
    (find_all [lit "meta"] (decompose_all unwanted d)) ->
  (forall t, In t (find_all heading_names (decompose_all unwanted d)) ->
             len (get_text t) <= 3) ->
  (forall t, In t (find_all [lit "p"] (decompose_all unwanted d)) ->
             len (get_text t) <= 30) ->
  (forall t, In t (find_all [lit "li"] (decompose_all unwanted d)) ->
             len (get_text t) <= 10) ->
  all_text (decompose_all unwanted d) = []
  /\ extract d = insufficient_content.
Proof.
  intros Htitle Hmeta Hh Hp Hli.
  assert (Hnone : all_text (decompose_all unwanted d) = []).
  { unfold all_text, title_text. rewrite Htitle.
    rewrite (meta_description_none Hmeta).
    fold heading_names.
    rewrite (texts_over_short _ _ Hh), (texts_over_short _ _ Hp),
      (texts_over_short _ _ Hli). reflexivity. }
  split; [exact Hnone|].
  unfold extract, website_text, cleaned_text. rewrite Hnone. reflexivity.
Qed.

Lemma boilerplate_rejected_example :
  all_text (decompose_all unwanted boilerplate_page) = []
  /\ extract boilerplate_page = insufficient_content.
Proof.
  apply (@boilerplate_rejected boilerplate_page).
  - reflexivity.
  - constructor.
  - intros t Ht. vm_compute in Ht.
    repeat (destruct Ht as [<- | Ht]; [vm_compute; discriminate|]).
    contradiction.
  - intros t Ht. vm_compute in Ht.
    repeat (destruct Ht as [<- | Ht]; [vm_compute; discriminate|]).
    contradiction.
  - intros t Ht. vm_compute in Ht.
    repeat (destruct Ht as [<- | Ht]; [vm_compute; discriminate|]).
    contradiction.
Defined.

(** ** The cleaned text *)

Lemma lit_dot_space : lit ". " = [46%N; 32%N].
Proof. reflexivity. Qed.

Lemma lit_dot_nl : (lit "." ++ nl)%list = [46%N; 10%N].
Proof. reflexivity. Qed.

Lemma replace_dot_step (c : char) (s : str) :
  replace_aux [46%N; 32%N] [46%N; 10%N] 0 (c :: s) =
  match s with
  | c' :: s' =>
      if ((c =? 46) && (c' =? 32))%N
      then 46%N :: 10%N :: replace_aux [46%N; 32%N] [46%N; 10%N] 0 s'
      else c :: replace_aux [46%N; 32%N] [46%N; 10%N] 0 s
  | [] => [c]
  end.
Proof.
  destruct s as [|c' s'].
  - cbn [replace_aux startswith]. rewrite andb_false_r. reflexivity.
  - cbn [replace_aux startswith length Nat.sub app].
    rewrite (N.eqb_sym 46 c), (N.eqb_sym 32 c'), andb_true_r.
    destruct ((c =? 46) && (c' =? 32))%N; reflexivity.
Qed.

Lemma contains_dot_space_cons (c : char) (s : str) :
  contains [46%N; 32%N] (c :: s) =
  (N.eqb c 46 && match s with c' :: _ => N.eqb c' 32 | [] => false end)
  || contains [46%N; 32%N] s.
Proof.
  cbn [contains startswith]. rewrite (N.eqb_sym 46 c).
  destruct s as [|c' s']; [reflexivity|].
  rewrite (N.eqb_sym 32 c'), andb_true_r. reflexivity.
Qed.

(** The replaced text starts with a space only where the text did. *)
Lemma replace_dot_head (s : str) :
  match replace_aux [46%N; 32%N] [46%N; 10%N] 0 s with
  | c :: _ => N.eqb c 32
  | [] => false
  end = true ->
  match s with c :: _ => N.eqb c 32 | [] => false end = true.
Proof.
  destruct s as [|c s]; [discriminate|].
  rewrite replace_dot_step. destruct s as [|c' s']; [auto|].
  destruct ((c =? 46) && (c' =? 32))%N; [discriminate | auto].
Qed.

Lemma replace_dot_clean_upto (n : nat) (s : str) :
  (length s <= n)%nat ->
  contains [46%N; 32%N] (replace_aux [46%N; 32%N] [46%N; 10%N] 0 s) = false.
Proof.
  revert s. induction n as [|n IH]; intros s Hlen.
  - destruct s; [reflexivity | simpl in Hlen; lia].
  - destruct s as [|c s]; [reflexivity|].
    rewrite replace_dot_step. destruct s as [|c' s'].
    + cbn. rewrite andb_false_r. reflexivity.
    + destruct ((c =? 46) && (c' =? 32))%N eqn:Hmatch.
      * rewrite contains_dot_space_cons. cbn [N.eqb andb orb].
        rewrite contains_dot_space_cons.
        change (10 =? 46)%N with false. cbn [andb orb].
        apply IH. simpl in Hlen. lia.
      * rewrite contains_dot_space_cons.
        rewrite (IH (c' :: s')) by (simpl in Hlen |- *; lia).
        rewrite orb_false_r.
        destruct (c =? 46)%N eqn:Hc; [|reflexivity]. cbn [andb] in *.
        destruct (replace_aux [46%N; 32%N] [46%N; 10%N] 0 (c' :: s'))
          as [|x out] eqn:Hout; [reflexivity|].
        destruct (x =? 32)%N eqn:Hx; [|reflexivity].
        pose proof (replace_dot_head (c' :: s')) as Hhead.
        rewrite Hout in Hhead. specialize (Hhead Hx). cbn in Hhead.
        rewrite Hhead in Hmatch. discriminate Hmatch.
Qed.

(** X5: the cleaned text never holds a full stop followed by a space:
    every such place has become a full stop followed by a line break. *)
Theorem cleaned_text_sentence_breaks (fragments : list str) :
  contains (lit ". ") (combine_and_clean fragments) = false.
Proof.
  unfold combine_and_clean, replace. cbv zeta.
  rewrite lit_dot_space, lit_dot_nl.
  eapply replace_dot_clean_upto. apply Nat.le_refl.
Qed.

Lemma split_aux_plain (cur s : str) :
  Forall (fun c => isspace c = false) cur ->
  Forall (Forall (fun c => isspace c = false)) (split_aux cur s).
Proof.
  revert cur. induction s as [|c s IH]; intros cur Hcur.
  - cbn. destruct cur; [constructor|].
    constructor; [|constructor].
    rewrite rev_append_rev, app_nil_r. apply Forall_rev. exact Hcur.
  - cbn [split_aux]. destruct (isspace c) eqn:Hc.
    + destruct cur as [|x cur'].
      * apply IH. constructor.
      * constructor; [|apply IH; constructor].
        rewrite rev_append_rev, app_nil_r. apply Forall_rev. exact Hcur.
    + apply IH. constructor; assumption.
Qed.

Lemma join_space_plain (parts : list str) :
  Forall (Forall (fun c => isspace c = false)) parts ->
  Forall plain_or_space (join (lit " ") parts).
Proof.
  assert (Hpart : forall p, Forall (fun c => isspace c = false) p ->
                            Forall plain_or_space p).
  { intros p Hp. apply (Forall_impl (P := fun c => isspace c = false));
      [|exact Hp].
    intros c Hc Hs. rewrite Hs in Hc. discriminate Hc. }
  induction 1 as [|p rest Hp Hrest IH]; [constructor|].
  cbn [join]. destruct rest as [|q rest]; [apply Hpart; exact Hp|].
  apply Forall_app. split; [apply Hpart; exact Hp|].
  apply Forall_app. split; [|exact IH].
  constructor; [|constructor]. intros _. reflexivity.
Qed.

Lemma replace_aux_from (P : char -> Prop) (old new : str) (skip : nat)
    (s : str) :
  Forall P new -> Forall P s -> Forall P (replace_aux old new skip s).
Proof.
  intros Hnew. revert skip. induction s as [|c s IH]; intros skip Hs.
  - constructor.
  - inversion Hs as [|c0 s0 Hc Hs']; subst.
    cbn [replace_aux]. destruct skip as [|k]; [|apply IH; exact Hs'].
    destruct (startswith old (c :: s)).
    + apply Forall_app. split; [exact Hnew | apply IH; exact Hs'].
    + constructor; [exact Hc | apply IH; exact Hs'].
Qed.

(** X6: whatever whitespace the page had (tabs, line breaks, no-break
    spaces, runs of spaces), the only whitespace characters left in the
    cleaned text are the space and the line break. *)
Theorem cleaned_text_whitespace (fragments : list str) :
  Forall plain_space_or_nl (combine_and_clean fragments).
Proof.
  unfold combine_and_clean, replace. cbv zeta.
  apply replace_aux_from.
  - rewrite lit_dot_nl. constructor; [intros H; discriminate H|].
    constructor; [|constructor]. intros _. right. reflexivity.
  - apply (Forall_impl (P := plain_or_space));
      [|apply join_space_plain, split_aux_plain; constructor].
    intros c Hc Hs. left. apply Hc. exact Hs.
Qed.

(** ** Stripping *)

Lemma lstrip_head (s : str) :
  match lstrip s with c :: _ => isspace c = false | [] => True end.
Proof.
  induction s as [|c s IH]; [exact I|].
  cbn [lstrip]. destruct (isspace c) eqn:Hc; [exact IH | exact Hc].
Qed.

Lemma rstrip_rstrip (s : str) : rstrip (rstrip s) = rstrip s.
Proof.
  induction s as [|c s IH]; [reflexivity|].
  cbn [rstrip]. destruct (rstrip s) as [|x r] eqn:Hr.
  - destruct (isspace c) eqn:Hc; [reflexivity|].
    cbn [rstrip]. rewrite Hc. reflexivity.
  - cbn [rstrip]. cbn [rstrip] in IH.
    change (match rstrip r with
            | [] => if isspace x then [] else [x]
            | y :: r' => x :: y :: r'
            end) with (rstrip (x :: r)).
    rewrite IH. reflexivity.
Qed.

Lemma rstrip_keeps_head (c : char) (s : str) :
  isspace c = false -> exists r, rstrip (c :: s) = c :: r.
Proof.
  intros Hc. cbn [rstrip]. destruct (rstrip s) as [|x r].
  - rewrite Hc. exists []. reflexivity.
  - exists (x :: r). reflexivity.
Qed.

Lemma strip_strip (s : str) : strip (strip s) = strip s.
Proof.
  unfold strip. pose proof (lstrip_head s) as Hhead.
  destruct (lstrip s) as [|c t]; [reflexivity|].
  destruct (@rstrip_keeps_head c t Hhead) as [r Hr].
  rewrite Hr. cbn [lstrip]. rewrite Hhead, <- Hr. apply rstrip_rstrip.
Qed.

(** ** The two provider calls *)

Section ProviderProperties.

Variable lower : str -> str.

Lemma key_guard_passes (api_key : str) :
  strip api_key <> [] ->
  negb (truthy api_key) || (len (strip api_key) =? 0) = false.
Proof. apply question_guard_passes. Qed.

(** X7: for the empty key and for a key of whitespace only,
    [test_groq_api] answers "API key cannot be empty" without calling the
    provider, in every world. *)
Theorem test_groq_api_blank_key (w : world) (api_key : str) :
  (forall c, In c api_key -> isspace c = true) ->
  run w (test_groq_api lower api_key)
  = (mk_test_result false (lit "API key cannot be empty"), []).
Proof.
  intros Hblank. unfold test_groq_api.
  rewrite (strip_whitespace api_key Hblank), orb_true_r. reflexivity.
Qed.

(** X8: for a key that is not blank, [test_groq_api] calls the provider
    once, with the stripped key, the fixed model, the single user message
    "test" and 5 tokens at most. It succeeds exactly when the call
    returns; when the call raises, the message is the invalid-key message
    if the text of the exception holds "401" or, lower-cased,
    "authentication", and "Error: " followed by that text otherwise. *)
Theorem test_groq_api_one_call (w : world) (api_key : str) :
  strip api_key <> [] ->
  snd (run w (test_groq_api lower api_key)) = [CallCreate (test_request api_key)]
  /\ (test_success (tested lower w api_key) = true
      <-> exists c, groq w (test_request api_key) = Returned c)
  /\ (forall e, groq w (test_request api_key) = Raised e ->
        test_message (tested lower w api_key)
        = if contains (lit "authentication") (lower (str_e e))
             || contains (lit "401") (str_e e)
          then lit "Invalid API key. Please check and try again."
          else lit "Error: " ++ str_e e).
Proof.
  intros Hkey. unfold tested, test_groq_api.
  rewrite (key_guard_passes api_key Hkey). fold (test_request api_key).
  cbn [run]. destruct (groq w (test_request api_key)) as [c | e] eqn:Hgot;
    cbn [fst snd run].
  - split; [reflexivity|]. split; [|discriminate].
    split; [intros _; exists c; reflexivity | reflexivity].
  - split; [reflexivity|]. split.
    + unfold test_except.
      destruct (contains _ _ || contains _ _); cbn [test_success];
        (split; [discriminate | intros [c Hc]; discriminate Hc]).
    + intros e' He'. injection He' as <-. unfold test_except.
      destruct (contains _ _ || contains _ _); reflexivity.
Qed.

(** X9: for a question that is not blank and a client, [ask_groq] calls
    the provider once, with the client's key, the built message list, 800
    tokens at most and temperature 0.7. It succeeds exactly when the call
    returns a first choice with a content; the answer is then that
    content stripped, so it has no whitespace at either end. Every other
    outcome is a failure whose answer starts with "Error: ". *)
Theorem ask_groq_one_call (w : world) (key url content question : str)
    (history : list msg) :
  strip question <> [] ->
  snd (run w (ask_groq lower (Some key) url content question history))
  = [CallCreate (ask_request key url content question history)]
  /\ (forall r,
        r = fst (run w (ask_groq lower (Some key) url content question history)) ->
        (ask_success r = true ->
         exists reply rest,
           groq w (ask_request key url content question history)
           = Returned (Some reply :: rest)
           /\ answer r = strip reply /\ strip (answer r) = answer r)
        /\ (ask_success r = false ->
            startswith (lit "Error: ") (answer r) = true)).
Proof.
  intros Hq. unfold ask_groq.
  rewrite (question_guard_passes question Hq).
  fold sampling. fold (ask_request key url content question history).
  cbn [run].
  destruct (groq w (ask_request key url content question history))
    as [[|[reply|] rest] | e]; cbn [fst snd run];
    (split; [reflexivity|]); intros r ->.
  - split; [discriminate | reflexivity].
  - split; [|discriminate]. intros _. exists reply, rest.
    cbn [answer]. repeat split. apply strip_strip.
  - split; [discriminate | reflexivity].
  - split; [discriminate | reflexivity].
Qed.

End ProviderProperties.

Lemma test_groq_api_blank_key_example :
  run offline (test_groq_api (fun s => s) (lit "  "))
  = (mk_test_result false (lit "API key cannot be empty"), []).
Proof.
  apply (@test_groq_api_blank_key (fun s => s) offline (lit "  ")).
  intros c Hc. simpl in Hc.
  repeat (destruct Hc as [<- | Hc]; [reflexivity|]). contradiction.
Defined.

Lemma test_groq_api_one_call_example :
  snd (run timing_out (test_groq_api (fun s => s) (lit " gsk_key ")))
  = [CallCreate (test_request (lit " gsk_key "))].
Proof.
  apply (@test_groq_api_one_call (fun s => s) timing_out (lit " gsk_key ")).
  discriminate.
Defined.

Lemma ask_groq_one_call_example :
  snd (run good_reply
         (ask_groq (fun s => s) (Some (lit "gsk_key")) (lit "https://example.com")
            (lit "TITLE: Example") (lit "What is this?") ten_entries))
  = [CallCreate
       (ask_request (lit "gsk_key") (lit "https://example.com")
          (lit "TITLE: Example") (lit "What is this?") ten_entries)].
Proof.
  apply (@ask_groq_one_call (fun s => s) good_reply (lit "gsk_key")
           (lit "https://example.com") (lit "TITLE: Example")
           (lit "What is this?") ten_entries).
  discriminate.
Defined.

(** ** The handlers *)

Lemma snd_run_bind_ret {A B} (w : world) (p : io A) (f : A -> io B) :
  (forall a, exists b, f a = Ret b) ->
  snd (run w (bind p f)) = snd (run w p).
Proof.
  intros Hret. rewrite run_bind. cbn [snd].
  destruct (Hret (fst (run w p))) as [b ->]. apply app_nil_r.
Qed.

Lemma slice_last_incl {A} (n : Z) (l : list A) : incl (slice_last n l) l.
Proof.
  intros x Hx. rewrite (slice_last_suffix n l). apply in_or_app. right. exact Hx.
Qed.

(** A slice that is long enough for [e] keeps [e] at the end of [h ++ e]. *)
Lemma slice_last_keeps_end {A} (n : Z) (h e : list A) :
  (length e <= Z.to_nat n)%nat ->
  exists older, slice_last n (h ++ e) = (older ++ e)%list.
Proof.
  intros He. unfold slice_last. rewrite skipn_app, length_app.
  replace (length h + length e - Z.to_nat n - length h)%nat with 0%nat by lia.
  eexists. reflexivity.
Qed.

Section HandlerProperties.

Variable lower : str -> str.

Lemma test_groq_api_calls (w : world) (api_key : str) :
  snd (run w (test_groq_api lower api_key)) = []
  \/ exists req, snd (run w (test_groq_api lower api_key)) = [CallCreate req].
Proof.
  unfold test_groq_api.
  destruct (negb (truthy api_key) || (len (strip api_key) =? 0));
    [left; reflexivity|].
  right. eexists. cbn [run]. destruct (groq w _); reflexivity.
Qed.

Lemma ask_groq_calls (w : world) (client : option str)
    (url content question : str) (history : list msg) :
  snd (run w (ask_groq lower client url content question history)) = []
  \/ exists req,
       snd (run w (ask_groq lower client url content question history))
       = [CallCreate req].
Proof.
  unfold ask_groq.
  destruct (negb (truthy question) || (len (strip question) =? 0));
    [left; reflexivity|].
  destruct client as [key|]; [|left; reflexivity].
  right. eexists. cbn [run].
  destruct (groq w _) as [[|[reply|] rest] | e]; reflexivity.
Qed.

Lemma calls_validate (w : world) (key : str) (s : session) :
  calls lower w (Validate key) s =
  if truthy key then snd (run w (test_groq_api lower key)) else [].
Proof.
  unfold calls, handle, click_validate.
  destruct (truthy key); [|reflexivity].
  apply snd_run_bind_ret. intros r.
  destruct (test_success r); eexists; reflexivity.
Qed.

Lemma calls_scrape (w : world) (url : str) (s : session) :
  calls lower w (Scrape url) s =
  if api_validated s && truthy url
  then [CallGet (the_request (add_https url))] else [].
Proof.
  unfold calls, handle, click_scrape.
  destruct (api_validated s); [|reflexivity].
  destruct (truthy url); [|reflexivity]. cbn [negb andb].
  rewrite snd_run_bind_ret.
  - rewrite run_scrape_website. reflexivity.
  - intros r. destruct (success r); eexists; reflexivity.
Qed.

Lemma calls_ask (w : world) (question : str) (s : session) :
  calls lower w (Ask question) s =
  if chat_shown s && truthy question
  then snd (run w (ask_groq lower (groq_client s) (website_url s)
                     (website_content s) question (chat_history s)))
  else [].
Proof.
  unfold calls, handle, click_ask.
  destruct (chat_shown s && truthy question); [|reflexivity].
  apply snd_run_bind_ret. intros r. cbv zeta.
  destruct (ask_success r); [|eexists; reflexivity].
  destruct (8 <? _); eexists; reflexivity.
Qed.

Lemma calls_quick (w : world) (idx : nat) (s : session) :
  calls lower w (Quick idx) s =
  if chat_shown s
  then match nth_error quick_questions idx with
       | Some q =>
           snd (run w (ask_groq lower (groq_client s) (website_url s)
                         (website_content s) q (chat_history s)))
       | None => []
       end
  else [].
Proof.
  unfold calls, handle, click_quick.
  destruct (chat_shown s); [|reflexivity].
  destruct (nth_error quick_questions idx) as [q|]; [|reflexivity].
  apply snd_run_bind_ret. intros r. cbv zeta.
  destruct (ask_success r); eexists; reflexivity.
Qed.

(** X10: every action makes at most one outbound call, in every world
    and session. Only the scrape button fetches a page, and it never
    calls the provider; the other buttons never fetch a page. *)
Theorem one_call_per_action (w : world) (a : action) (s : session) :
  calls lower w a s = []
  \/ (exists url, a = Scrape url
                  /\ calls lower w a s = [CallGet (the_request (add_https url))])
  \/ (exists req, (forall url, a <> Scrape url)
                  /\ calls lower w a s = [CallCreate req]).
Proof.
  destruct a as [key | url | | | question | idx].
  - rewrite calls_validate. destruct (truthy key); [|left; reflexivity].
    destruct (test_groq_api_calls w key) as [-> | [req ->]];
      [left; reflexivity|].
    right. right. exists req. split; [discriminate | reflexivity].
  - rewrite calls_scrape.
    destruct (api_validated s && truthy url); [|left; reflexivity].
    right. left. exists url. split; reflexivity.
  - left. reflexivity.
  - left. reflexivity.
  - rewrite calls_ask.
    destruct (chat_shown s && truthy question); [|left; reflexivity].
    destruct (ask_groq_calls w (groq_client s) (website_url s)
                (website_content s) question (chat_history s))
      as [-> | [req ->]]; [left; reflexivity|].
    right. right. exists req. split; [discriminate | reflexivity].
  - rewrite calls_quick. destruct (chat_shown s); [|left; reflexivity].
    destruct (nth_error quick_questions idx) as [q|]; [|left; reflexivity].
    destruct (ask_groq_calls w (groq_client s) (website_url s)
                (website_content s) q (chat_history s))
      as [-> | [req ->]]; [left; reflexivity|].
    right. right. exists req. split; [discriminate | reflexivity].
Qed.

(** X11: an action the handler turns down (validate without a key,
    scrape without a validated key or without a URL, a question without
    the chat area or without text) makes no call and leaves the session
    exactly as it was. *)
Theorem turned_down_action (w : world) (a : action) (s : session) :
  turned_down a s = true ->
  run w (handle lower a s) = (s, []).
Proof.
  destruct a as [key | url | | | question | idx]; cbn [turned_down handle].
  - intros H. apply negb_true_iff in H. unfold click_validate.
    rewrite H. reflexivity.
  - intros H. unfold click_scrape.
    destruct (api_validated s); [|reflexivity].
    destruct (truthy url); [discriminate H | reflexivity].
  - discriminate.
  - discriminate.
  - intros H. unfold click_ask.
    destruct (chat_shown s); [|reflexivity].
    destruct (truthy question); [discriminate H | reflexivity].
  - intros H. unfold click_quick.
    destruct (chat_shown s); [|reflexivity].
    destruct (nth_error quick_questions idx); [discriminate H | reflexivity].
Qed.

Lemma tested_success_key (w : world) (key : str) :
  test_success (tested lower w key) = true ->
  truthy key = true /\ strip key <> [].
Proof.
  unfold tested, test_groq_api.
  destruct key as [|c key]; [discriminate|].
  destruct (strip (c :: key)) as [|x r]; [discriminate|].
  intros _. split; [reflexivity | discriminate].
Qed.

(** X12: a validation that succeeds was made with the stripped key, but
    the client the session keeps is made with the key as typed: every
    later question goes to the provider with the typed key, surrounding
    whitespace included. Nothing else in the session changes but the
    validated flag. *)
Theorem validate_keeps_typed_key (w : world) (key : str) (s : session) :
  test_success (tested lower w key) = true ->
  calls lower w (Validate key) s = [CallCreate (test_request key)]
  /\ req_api_key (test_request key) = strip key
  /\ step lower w (Validate key) s
     = mk_session (Some key) (website_scraped s) (website_content s)
         (website_url s) (messages s) (chat_history s) true
  /\ (forall w' question,
        website_scraped s = true -> strip question <> [] ->
        calls lower w' (Ask question) (step lower w (Validate key) s)
        = [CallCreate (ask_request key (website_url s) (website_content s)
                         question (chat_history s))]).
Proof.
  intros Hok. destruct (tested_success_key w key Hok) as [Htyped Hkey].
  assert (Hstep : step lower w (Validate key) s
                  = mk_session (Some key) (website_scraped s)
                      (website_content s) (website_url s) (messages s)
                      (chat_history s) true).
  { rewrite step_validate, Htyped, Hok. reflexivity. }
  split.
  { rewrite calls_validate, Htyped. unfold test_groq_api.
    rewrite (key_guard_passes key Hkey). fold (test_request key).
    cbn [run]. destruct (groq w (test_request key)); reflexivity. }
  split; [reflexivity|]. split; [exact Hstep|].
  intros w' question Hscraped Hq. rewrite calls_ask, Hstep.
  unfold chat_shown. cbn [api_validated website_scraped groq_client
    website_url website_content chat_history].
  rewrite Hscraped.
  assert (Htruthy : truthy question = true).
  { destruct question; [contradiction Hq; reflexivity | reflexivity]. }
  rewrite Htruthy. cbn [andb]. unfold ask_groq.
  rewrite (question_guard_passes question Hq).
  fold sampling.
  fold (ask_request key (website_url s) (website_content s) question
          (chat_history s)).
  cbn [run]. destruct (groq w' _) as [[|[reply|] rest] | e]; reflexivity.
Qed.

End HandlerProperties.

Lemma turned_down_action_example :
  run good_reply (handle (fun s => s) (Scrape (lit "example.com")) initial_session)
  = (initial_session, []).
Proof.
  apply (@turned_down_action (fun s => s) good_reply
           (Scrape (lit "example.com")) initial_session).
  reflexivity.
Defined.

Lemma validate_keeps_typed_key_example :
  step (fun s => s) good_reply (Validate spaced_key) ready_session
  = mk_session (Some spaced_key) true (lit "TITLE: Old page")
      (lit "https://old.example") [] [] true
  /\ req_api_key (test_request spaced_key) = lit "gsk_key".
Proof.
  assert (Hok : test_success (tested (fun s => s) good_reply spaced_key) = true)
    by reflexivity.
  destruct (@validate_keeps_typed_key (fun s => s) good_reply spaced_key
              ready_session Hok) as [_ [Hsent [Hstep _]]].
  split; [exact Hstep|]. rewrite Hsent. reflexivity.
Defined.

(** ** Invariants of the session *)

Section SessionInvariants.

Variable lower : str -> str.

Lemma steps_invariant (P : session -> Prop) :
  (forall w a s, P s -> P (step lower w a s)) ->
  forall todo s, P s -> P (steps lower todo s).
Proof.
  intros Hstep todo. induction todo as [|[w a] todo IH]; intros s Hs.
  - exact Hs.
  - cbn [steps]. apply IH, Hstep, Hs.
Qed.

Lemma step_consistent (w : world) (a : action) (s : session) :
  consistent s -> consistent (step lower w a s).
Proof.
  intros Hs. pose proof Hs as [Hkey [Hsite Hlen]].
  destruct a as [key | url | | | question | idx].
  - rewrite step_validate. destruct (truthy key); [|exact Hs].
    destruct (test_success _); unfold consistent;
      cbn [api_validated groq_client website_scraped website_content].
    + split; [discriminate|]. split; [|exact Hlen].
      intros H. split; [discriminate | apply Hsite, H].
    + split; [discriminate|]. split; assumption.
  - rewrite step_scrape. destruct (api_validated s) eqn:Hv; [|exact Hs].
    destruct (truthy url); [|exact Hs]. cbn [andb].
    destruct (scraped_content_bounds w url) as [Hok _].
    destruct (success (scraped w url)); unfold consistent;
      cbn [api_validated groq_client website_scraped website_content].
    + specialize (Hok eq_refl). split; [intros _; apply Hkey; reflexivity|].
      split; [|lia]. intros _. split; [apply Hkey; reflexivity | lia].
    + split; [intros _; apply Hkey; reflexivity|].
      split; [discriminate | exact Hlen].
  - exact Hs.
  - unfold consistent. cbn [step handle click_reset_all run fst
      initial_session api_validated groq_client website_scraped
      website_content].
    split; [discriminate|]. split; [discriminate|].
    rewrite len_nil, len_truncation_marker. lia.
  - rewrite step_ask. destruct (chat_shown s && truthy question); [|exact Hs].
    exact Hs.
  - rewrite step_quick. destruct (chat_shown s); [|exact Hs].
    destruct (nth_error quick_questions idx) as [q|]; exact Hs.
Qed.

(** X13: through any sequence of actions from the initial session, in
    any worlds: a validated key comes with a client, a scraped website
    comes with a client and a stored content of at least 200 characters,
    and the stored content never exceeds 15,000 characters plus the
    truncation marker. In particular a question is never asked without a
    client. *)
Theorem session_stays_consistent (todo : list (world * action)) :
  consistent (steps lower todo initial_session)
  /\ (chat_shown (steps lower todo initial_session) = true ->
      groq_client (steps lower todo initial_session) <> None).
Proof.
  assert (H : consistent (steps lower todo initial_session)).
  { apply steps_invariant; [apply step_consistent|].
    unfold consistent, initial_session.
    cbn [api_validated groq_client website_scraped website_content].
    split; [discriminate|]. split; [discriminate|].
    rewrite len_nil, len_truncation_marker. lia. }
  split; [exact H|]. destruct H as [Hkey _]. unfold chat_shown.
  intros Hshown. apply andb_prop in Hshown. apply Hkey, Hshown.
Qed.

Lemma step_history_shown (w : world) (a : action) (s : session) :
  incl (chat_history s) (messages s) ->
  incl (chat_history (step lower w a s)) (messages (step lower w a s)).
Proof.
  intros H. destruct a as [key | url | | | question | idx].
  - rewrite step_validate. destruct (truthy key); [|exact H].
    destruct (test_success _); exact H.
  - rewrite step_scrape. destruct (api_validated s && truthy url); [|exact H].
    destruct (success _); [apply incl_nil_l | exact H].
  - apply incl_nil_l.
  - apply incl_nil_l.
  - rewrite step_ask. destruct (chat_shown s && truthy question); [|exact H].
    cbv zeta. cbn [chat_history messages].
    destruct (ask_success _); [|apply incl_appl; exact H].
    unfold keep_manageable.
    destruct (8 <? _);
      [eapply incl_tran; [apply slice_last_incl|]|];
      (apply incl_app; [apply incl_appl; exact H | apply incl_appr, incl_refl]).
  - rewrite step_quick. destruct (chat_shown s); [|exact H].
    destruct (nth_error quick_questions idx) as [q|]; [|exact H].
    cbv zeta. cbn [chat_history messages].
    destruct (ask_success _); [|apply incl_appl; exact H].
    apply incl_app; [apply incl_appl; exact H | apply incl_appr, incl_refl].
Qed.

(** X14: through any sequence of actions from the initial session, every
    message kept for the model is among the messages on display: the
    provider is never sent a turn the user cannot see. *)
Theorem history_is_on_display (todo : list (world * action)) (m : msg) :
  In m (chat_history (steps lower todo initial_session)) ->
  In m (messages (steps lower todo initial_session)).
Proof.
  revert m.
  apply (steps_invariant (fun s => incl (chat_history s) (messages s)));
    [apply step_history_shown | apply incl_nil_l].
Qed.

(** X15: whatever the actions, quick questions included, the chat
    history stays made of whole exchanges, a user message followed by an
    assistant message, once it is. *)
Theorem history_stays_in_exchanges (todo : list (world * action))
    (s : session) :
  exchanges (chat_history s) ->
  exchanges (chat_history (steps lower todo s)).
Proof.
  apply (steps_invariant (fun s => exchanges (chat_history s))).
  intros w a s'. apply step_keeps_exchanges.
Qed.

(** X16: when no quick-question button is used, the chat history stays
    within 8 entries through any sequence of actions, once it is. *)
Theorem history_stays_capped (todo : list (world * action)) (s : session) :
  forallb (fun wa => negb (is_quick (snd wa))) todo = true ->
  len (chat_history s) <= 8 ->
  len (chat_history (steps lower todo s)) <= 8.
Proof.
  revert s. induction todo as [|[w a] todo IH]; intros s Hq Hl; [exact Hl|].
  cbn [forallb snd] in Hq. apply andb_prop in Hq. destruct Hq as [Ha Hq].
  apply negb_true_iff in Ha. cbn [steps].
  apply IH; [exact Hq | apply step_keeps_cap; assumption].
Qed.

(** X17: after a question that succeeds, asked with either button, the
    chat history ends with that exchange, and in the message list of the
    next question the exchange stands right before the new question. *)
Theorem answered_question_is_remembered (w : world) (a : action)
    (question : str) (s : session) :
  (a = Ask question /\ chat_shown s && truthy question = true
   \/ exists idx, a = Quick idx /\ chat_shown s = true
                  /\ nth_error quick_questions idx = Some question) ->
  ask_success (asked lower w question s) = true ->
  (exists older,
     chat_history (step lower w a s)
     = (older ++ exchange question (asked lower w question s))%list)
  /\ (forall next, exists front,
        build_messages (website_url (step lower w a s))
          (website_content (step lower w a s)) next
          (chat_history (step lower w a s))
        = (front ++ exchange question (asked lower w question s)
           ++ [mk_msg user next])%list).
Proof.
  intros Ha Hok.
  assert (Hend : exists older,
             chat_history (step lower w a s)
             = (older ++ exchange question (asked lower w question s))%list).
  { destruct Ha as [[-> Hrun] | [idx [-> [Hshown Hq]]]].
    - rewrite step_ask, Hrun. cbv zeta. cbn [chat_history]. rewrite Hok.
      unfold keep_manageable. destruct (8 <? _).
      + apply slice_last_keeps_end. cbn. lia.
      + eexists. reflexivity.
    - rewrite step_quick, Hshown, Hq. cbv zeta. cbn [chat_history].
      rewrite Hok. eexists. reflexivity. }
  split; [exact Hend|]. intros next. destruct Hend as [older ->].
  rewrite build_messages_shape.
  destruct (@slice_last_keeps_end msg 4 older
              (exchange question (asked lower w question s)))
    as [kept ->]; [cbn; lia|].
  exists (mk_msg system
            (system_prompt (website_url (step lower w a s))
               (website_content (step lower w a s))) :: kept).
  cbn [app]. rewrite <- app_assoc. reflexivity.
Qed.

End SessionInvariants.

Lemma history_is_on_display_example :
  In (mk_msg user (lit "What is this website about?"))
    (messages
       (steps (fun s => s)
          [(good_reply, Validate (lit "gsk_key"));
           (good_reply, Scrape (lit "example.com"));
           (good_reply, Quick 0)]
          initial_session)).
Proof.
  apply (@history_is_on_display (fun s => s)
           [(good_reply, Validate (lit "gsk_key"));
            (good_reply, Scrape (lit "example.com"));
            (good_reply, Quick 0)]).
  vm_compute. left. reflexivity.
Defined.

Lemma history_stays_in_exchanges_example :
  exchanges
    (chat_history
       (steps (fun s => s) (repeat (good_reply, Quick 0) 5) talking_session)).
Proof.
  apply (@history_stays_in_exchanges (fun s => s)
           (repeat (good_reply, Quick 0) 5) talking_session).
  cbn. auto.
Defined.

Lemma history_stays_capped_example :
  len (chat_history
         (steps (fun s => s)
            (repeat (good_reply, Ask (lit "And what else?")) 5)
            talking_session)) <= 8.
Proof.
  apply (@history_stays_capped (fun s => s)
           (repeat (good_reply, Ask (lit "And what else?")) 5)
           talking_session).
  - reflexivity.
  - vm_compute. discriminate.
Defined.

Lemma answered_question_is_remembered_example :
  exists older,
    chat_history
      (step (fun s => s) good_reply (Ask (lit "And what else?")) talking_session)
    = (older ++ exchange (lit "And what else?")
                  (asked (fun s => s) good_reply (lit "And what else?")
                     talking_session))%list.
Proof.
  apply (@answered_question_is_remembered (fun s => s) good_reply
           (Ask (lit "And what else?")) (lit "And what else?")
           talking_session).
  - left. split; reflexivity.
  - reflexivity.
Defined.
